(** * The mock staking ledger of the Polkadot staking agent

    A shallow embedding of [src/api/mock-state.ts] (the in-memory state
    manager used when [MOCK_CHAIN=1]): the two process-wide maps
    [accountStates] and [poolStates], the lazy accessors [getAccountState]
    and [getPoolState], and the seven exported operations
    [mockJoinPool], [mockBondExtra], [mockUnbond], [mockWithdrawUnbonded],
    [mockClaimRewards], [mockGetStakingStatus] and [mockGetPoolInfo]; and of
    the route handlers of [src/api/server.ts] that call them in mock mode.

    Modelling conventions.
    - The monetary fields are stored in the source as strings that are always
      either the literals ['0'] / [DEFAULT_BALANCE] or the output of
      [BigInt.prototype.toString]; they are read back with [BigInt(...)].
      Such a string is the canonical decimal numeral of its value, so a
      field is modelled by the value itself, an unbounded [Z]; the string
      tests [x === '0'] and [x !== '0'] are [x = 0] and [x <> 0].
    - Caller-supplied amounts stay strings, and [BigInt(amount)] is modelled
      by [StringToBigInt], which may throw.
    - [Date.now()] is an argument [now] of the operations that read the clock.
    - A pool id is a JavaScript number; it is modelled by an integer, and where
      a statement speaks of the text that a template literal renders from it,
      the id is a safe integer ([safe_integer]), for which the text is the
      full decimal numeral.
    - The maps are [gmap]s; an object fetched from a map and mutated in place
      is written back under its key. *)

From Stdlib Require Import ZArith String Ascii List Lia Bool DecimalString HexadecimalString.
From stdpp Require Import gmap strings fin_maps.

Local Open Scope string_scope.
Local Open Scope Z_scope.

(** ** [BigInt(string)]

    ECMAScript's StringToBigInt: surrounding white space is dropped; the
    empty text is [0n]; otherwise an optionally signed run of decimal digits,
    or an unsigned [0x] / [0o] / [0b] literal.  Anything else raises a
    [SyntaxError].  A character of a Rocq string stands for the code unit of
    the same number (0..255), so the white space of that range is TAB, LF,
    VT, FF, CR, SP and NBSP. *)

Definition is_StrWhiteSpaceChar (c : ascii) : bool :=
  let n := Z.of_N (N_of_ascii c) in
  ((9 <=? n) && (n <=? 13)) || (n =? 32) || (n =? 160).

Fixpoint trimStart (s : string) : string :=
  match s with
  | String c rest => if is_StrWhiteSpaceChar c then trimStart rest else s
  | EmptyString => EmptyString
  end.

Fixpoint trimEnd (s : string) : string :=
  match s with
  | String c rest =>
      match trimEnd rest with
      | EmptyString => if is_StrWhiteSpaceChar c then EmptyString else String c EmptyString
      | kept => String c kept
      end
  | EmptyString => EmptyString
  end.

Definition digit_value (c : ascii) : option Z :=
  let n := Z.of_N (N_of_ascii c) in
  if (48 <=? n) && (n <=? 57) then Some (n - 48)
  else if (97 <=? n) && (n <=? 102) then Some (n - 87)
  else if (65 <=? n) && (n <=? 70) then Some (n - 55)
  else None.

Fixpoint parse_digits (radix acc : Z) (s : string) : option Z :=
  match s with
  | EmptyString => Some acc
  | String c rest =>
      match digit_value c with
      | Some d => if d <? radix then parse_digits radix (acc * radix + d) rest else None
      | None => None
      end
  end.

(** At least one digit is required. *)
Definition parse_numeral (radix : Z) (s : string) : option Z :=
  match s with
  | EmptyString => None
  | _ => parse_digits radix 0 s
  end.

Definition StringToBigInt (s : string) : option Z :=
  match trimEnd (trimStart s) with
  | EmptyString => Some 0
  | String "0" (String ("x" | "X") digits) => parse_numeral 16 digits
  | String "0" (String ("o" | "O") digits) => parse_numeral 8 digits
  | String "0" (String ("b" | "B") digits) => parse_numeral 2 digits
  | String "+" digits => parse_numeral 10 digits
  | String "-" digits => Z.opp <$> parse_numeral 10 digits
  | digits => parse_numeral 10 digits
  end.

(** The amounts the specification admits: an unsigned decimal integer, that
    is a non-empty run of decimal digits and nothing else. *)
Definition parse_unsigned_decimal (s : string) : option Z := parse_numeral 10 s.

(** ** Records *)

Inductive PoolLifecycle : Set := Open | Blocked | Destroying.

Global Instance PoolLifecycle_eq_dec : EqDecision PoolLifecycle.
Proof. solve_decision. Defined.

Record AccountState : Set := mkAccountState {
  balance : Z;                (* free balance in Planck *)
  poolId : option Z;          (* current pool membership *)
  bonded : Z;                 (* amount bonded in the current pool *)
  unbonding : Z;              (* amount currently unbonding *)
  unbondingEra : option Z;    (* timestamp at which unbonding completes *)
  claimableRewards : Z        (* accumulated rewards *)
}.

Record PoolState : Set := mkPoolState {
  pool_poolId : Z;
  pool_bonded : Z;            (* total bonded in the pool *)
  memberCount : Z;
  state : PoolLifecycle;
  commission : string;
  metadata : option string
}.

Global Instance AccountState_eq_dec : EqDecision AccountState.
Proof. solve_decision. Defined.

Global Instance PoolState_eq_dec : EqDecision PoolState.
Proof. solve_decision. Defined.

(** The two module-level maps. *)
Record Ledger : Type := mkLedger {
  accountStates : gmap string AccountState;
  poolStates : gmap Z PoolState
}.

(** The ledger of a fresh process, and of [resetMockState]. *)
Definition emptyLedger : Ledger := mkLedger ∅ ∅.

Definition DEFAULT_BALANCE : Z := 10000000000000.
Definition UNBONDING_PERIOD_MS : Z := 28 * 24 * 60 * 60 * 1000.
Definition ONE_DAY_MS : Z := 24 * 60 * 60 * 1000.
(** [BigInt('10000000000')], the fee reserve of join and bond-extra. *)
Definition minReserve : Z := 10000000000.

Definition defaultAccount : AccountState :=
  mkAccountState DEFAULT_BALANCE None 0 0 None 0.

(** The decimal rendering of an integer in a template literal.  It is the
    text that JavaScript prints for the safe integers, from [-(2^53 - 1)] to
    [2^53 - 1]; a number beyond them is printed with rounded digits or with
    an exponent, which this rendering does not follow. *)
Definition string_of_Z (z : Z) : string :=
  DecimalString.NilZero.string_of_int (Z.to_int z).

(** The record that [getPoolState] creates; its metadata is the text of
    [`Pool ${poolId} (Mock)`] for a safe integer [p]. *)
Definition defaultPool (p : Z) : PoolState :=
  mkPoolState p 0 0 Open "0%" (Some ("Pool " +:+ string_of_Z p +:+ " (Mock)")).

(** ** Outcomes *)

Inductive ErrorCode : Set :=
  | POOL_NOT_OPEN
  | ALREADY_IN_POOL
  | FUNDS_UNBONDING
  | INSUFFICIENT_BALANCE
  | NOT_IN_POOL
  | INSUFFICIENT_BONDED
  | NO_UNBONDED_FUNDS
  | UNBONDING_PERIOD_NOT_COMPLETE
  | WRONG_POOL.

(** The string the source stores in the [error] field. *)
Definition error_string (e : ErrorCode) : string :=
  match e with
  | POOL_NOT_OPEN => "POOL_NOT_OPEN"
  | ALREADY_IN_POOL => "ALREADY_IN_POOL"
  | FUNDS_UNBONDING => "FUNDS_UNBONDING"
  | INSUFFICIENT_BALANCE => "INSUFFICIENT_BALANCE"
  | NOT_IN_POOL => "NOT_IN_POOL"
  | INSUFFICIENT_BONDED => "INSUFFICIENT_BONDED"
  | NO_UNBONDED_FUNDS => "NO_UNBONDED_FUNDS"
  | UNBONDING_PERIOD_NOT_COMPLETE => "UNBONDING_PERIOD_NOT_COMPLETE"
  | WRONG_POOL => "WRONG_POOL"
  end.

(** The message templates of the source with the values they interpolate.
    [formatBalance] renders an amount through floating point; the message
    keeps the amount itself. *)
Inductive Message : Set :=
  | MsgPoolNotOpen (pool : Z) (st : PoolLifecycle)
  | MsgAlreadyInOtherPool (current : option Z)
  | MsgFundsUnbonding (amount daysLeft : Z)
  | MsgInsufficientBalanceJoin (amount have : Z)
  | MsgAlreadyInThisPool (pool : Z)
  | MsgJoined (pool amount : Z)
  | MsgNotInPoolJoinFirst
  | MsgInsufficientBalanceBond (amount : Z)
  | MsgBondedExtra (amount pool : Z)
  | MsgNotInPool
  | MsgInsufficientBonded (amount have : Z)
  | MsgUnbondInitiated (amount : Z)
  | MsgNoUnbondedFunds
  | MsgUnbondingNotComplete (daysLeft : Z)
  | MsgWithdrew (amount : Z)
  | MsgWrongPool (requested : option Z) (current : Z)
  | MsgNoRewardsToClaim
  | MsgClaimed (rewards : Z).

(** The text of the messages that interpolate nothing. *)
Definition literal_text (m : Message) : option string :=
  match m with
  | MsgNotInPoolJoinFirst => Some "Not in any pool. Join a pool first."
  | MsgNotInPool => Some "Not in any pool"
  | MsgNoUnbondedFunds => Some "No unbonded funds to withdraw"
  | MsgNoRewardsToClaim => Some "No rewards to claim"
  | _ => None
  end.

Record Result : Set := mkResult {
  success : bool;
  message : Message;
  error : option ErrorCode
}.

Definition ok (m : Message) : Result := mkResult true m None.
Definition fail (m : Message) (e : ErrorCode) : Result := mkResult false m (Some e).

Record StakingStatus : Set := mkStakingStatus {
  status_account : string;
  status_poolId : option Z;
  status_bonded : Z;
  status_unbonding : Z;
  status_claimableRewards : Z;
  isMember : bool;
  status_balance : Z
}.

Record PoolInfo : Set := mkPoolInfo {
  info_poolId : Z;
  info_bonded : Z;
  info_memberCount : Z;
  info_state : PoolLifecycle;
  info_commission : string;
  info_metadata : option string;
  info_roles : string * string * string * string
    (* depositor, root, nominator, stateToggler *)
}.

(** ** Computations over the ledger that may throw

    A call either completes with a value or throws the [SyntaxError] of
    [BigInt]; in both cases the writes made so far stay in the ledger. *)

Inductive Completion (A : Type) : Type :=
  | Normal (a : A)
  | Throw.
Arguments Normal {A} a.
Arguments Throw {A}.

Definition M (A : Type) : Type := Ledger → Completion A * Ledger.

Definition ret {A} (a : A) : M A := λ l, (Normal a, l).

Definition bind {A B} (m : M A) (k : A → M B) : M B :=
  λ l, match m l with
       | (Normal a, l') => k a l'
       | (Throw, l') => (Throw, l')
       end.

Global Instance M_ret : MRet M := @ret.
Global Instance M_bind : MBind M := λ A B k m, bind m k.

Definition BigInt (s : string) : M Z :=
  λ l, match StringToBigInt s with
       | Some n => (Normal n, l)
       | None => (Throw, l)
       end.

(** Get or create account state. *)
Definition getAccountState (account : string) : M AccountState :=
  λ l, match accountStates l !! account with
       | Some a => (Normal a, l)
       | None =>
           (Normal defaultAccount,
            mkLedger (<[account := defaultAccount]> (accountStates l)) (poolStates l))
       end.

(** Get or create pool state. *)
Definition getPoolState (p : Z) : M PoolState :=
  λ l, match poolStates l !! p with
       | Some ps => (Normal ps, l)
       | None =>
           (Normal (defaultPool p),
            mkLedger (accountStates l) (<[p := defaultPool p]> (poolStates l)))
       end.

(** In-place mutation of the object stored under a key. *)
Definition setAccount (account : string) (a : AccountState) : M unit :=
  λ l, (Normal tt, mkLedger (<[account := a]> (accountStates l)) (poolStates l)).

Definition setPool (p : Z) (ps : PoolState) : M unit :=
  λ l, (Normal tt, mkLedger (accountStates l) (<[p := ps]> (poolStates l))).

(** [x || 0] on an optional timestamp. *)
Definition or_zero (t : option Z) : Z := default 0 t.

(** [Math.ceil((t - now) / (24 * 60 * 60 * 1000))]. *)
Definition daysLeft (t now : Z) : Z := - ((now - t) / ONE_DAY_MS).

(** ** The operations *)

(** Join a pool (first time or switching). *)
Definition mockJoinPool (account : string) (p : Z) (amount : string) (now : Z)
  : M Result :=
  accountState ← getAccountState account;
  poolState ← getPoolState p;
  amountBigInt ← BigInt amount;
  let balanceBigInt := balance accountState in
  let bondedBigInt := bonded accountState in
  let unbondingBigInt := unbonding accountState in
  (* pool must be open *)
  if decide (state poolState ≠ Open) then
    mret (fail (MsgPoolNotOpen p (state poolState)) POOL_NOT_OPEN)
  (* already in a different pool *)
  else if decide (poolId accountState ≠ None ∧ poolId accountState ≠ Some p) then
    mret (fail (MsgAlreadyInOtherPool (poolId accountState)) ALREADY_IN_POOL)
  (* unbonding funds whose period has not passed *)
  else if decide (0 < unbondingBigInt ∧ now < or_zero (unbondingEra accountState)) then
    mret (fail (MsgFundsUnbonding (unbonding accountState)
                  (daysLeft (or_zero (unbondingEra accountState)) now))
               FUNDS_UNBONDING)
  else
    let totalNeeded := amountBigInt + minReserve in
    if decide (balanceBigInt < totalNeeded) then
      mret (fail (MsgInsufficientBalanceJoin amountBigInt (balance accountState))
                 INSUFFICIENT_BALANCE)
    (* already in this pool: this is bond_extra *)
    else if decide (poolId accountState = Some p) then
      mret (fail (MsgAlreadyInThisPool p) ALREADY_IN_POOL)
    else
      let newBalance := balanceBigInt - amountBigInt in
      let newBonded := bondedBigInt + amountBigInt in
      setAccount account
        (mkAccountState newBalance (Some p) newBonded (unbonding accountState)
           (unbondingEra accountState) (claimableRewards accountState));;
      setPool p
        (mkPoolState (pool_poolId poolState) (pool_bonded poolState + amountBigInt)
           (if decide (bondedBigInt = 0) then memberCount poolState + 1
            else memberCount poolState)
           (state poolState) (commission poolState) (metadata poolState));;
      mret (ok (MsgJoined p amountBigInt)).

(** Bond extra funds to the existing pool. *)
Definition mockBondExtra (account : string) (amount : string) : M Result :=
  accountState ← getAccountState account;
  amountBigInt ← BigInt amount;
  let balanceBigInt := balance accountState in
  match poolId accountState with
  | None => mret (fail MsgNotInPoolJoinFirst NOT_IN_POOL)
  | Some p =>
      if decide (balanceBigInt < amountBigInt + minReserve) then
        mret (fail (MsgInsufficientBalanceBond amountBigInt) INSUFFICIENT_BALANCE)
      else
        poolState ← getPoolState p;
        setAccount account
          (mkAccountState (balanceBigInt - amountBigInt) (Some p)
             (bonded accountState + amountBigInt) (unbonding accountState)
             (unbondingEra accountState) (claimableRewards accountState));;
        setPool p
          (mkPoolState (pool_poolId poolState) (pool_bonded poolState + amountBigInt)
             (memberCount poolState) (state poolState) (commission poolState)
             (metadata poolState));;
        mret (ok (MsgBondedExtra amountBigInt p))
  end.

(** Unbond funds from the pool. *)
Definition mockUnbond (account : string) (amount : string) (now : Z) : M Result :=
  accountState ← getAccountState account;
  amountBigInt ← BigInt amount;
  let bondedBigInt := bonded accountState in
  match poolId accountState with
  | None => mret (fail MsgNotInPool NOT_IN_POOL)
  | Some p =>
      if decide (amountBigInt > bondedBigInt) then
        mret (fail (MsgInsufficientBonded amountBigInt (bonded accountState))
                   INSUFFICIENT_BONDED)
      else
        poolState ← getPoolState p;
        let newBonded := bondedBigInt - amountBigInt in
        (* fully unbonded: leave the pool *)
        let leaves := bool_decide (newBonded = 0) in
        setAccount account
          (mkAccountState (balance accountState)
             (if leaves then None else Some p)
             newBonded (unbonding accountState + amountBigInt)
             (Some (now + UNBONDING_PERIOD_MS)) (claimableRewards accountState));;
        setPool p
          (mkPoolState (pool_poolId poolState) (pool_bonded poolState - amountBigInt)
             (if leaves then Z.max 0 (memberCount poolState - 1)
              else memberCount poolState)
             (state poolState) (commission poolState) (metadata poolState));;
        mret (ok (MsgUnbondInitiated amountBigInt))
  end.

(** Withdraw unbonded funds. *)
Definition mockWithdrawUnbonded (account : string) (now : Z) : M Result :=
  accountState ← getAccountState account;
  let unbondingBigInt := unbonding accountState in
  if decide (unbondingBigInt = 0) then
    mret (fail MsgNoUnbondedFunds NO_UNBONDED_FUNDS)
  else
    let unbondingCompleteTime := or_zero (unbondingEra accountState) in
    if decide (now < unbondingCompleteTime) then
      mret (fail (MsgUnbondingNotComplete (daysLeft unbondingCompleteTime now))
                 UNBONDING_PERIOD_NOT_COMPLETE)
    else
      setAccount account
        (mkAccountState (balance accountState + unbondingBigInt) (poolId accountState)
           (bonded accountState) 0 None (claimableRewards accountState));;
      mret (ok (MsgWithdrew unbondingBigInt)).

(** Claim rewards; [requested] is the optional [poolId] argument. *)
Definition mockClaimRewards (account : string) (requested : option Z) : M Result :=
  accountState ← getAccountState account;
  match poolId accountState with
  | None => mret (fail MsgNotInPool NOT_IN_POOL)
  | Some current =>
      if decide (requested ≠ None ∧ requested ≠ Some current) then
        mret (fail (MsgWrongPool requested current) WRONG_POOL)
      else
        let rewardsBigInt := claimableRewards accountState in
        if decide (rewardsBigInt = 0) then
          mret (ok MsgNoRewardsToClaim)
        else
          setAccount account
            (mkAccountState (balance accountState + rewardsBigInt) (Some current)
               (bonded accountState) (unbonding accountState)
               (unbondingEra accountState) 0);;
          mret (ok (MsgClaimed rewardsBigInt))
  end.

(** The view returned by a status read. *)
Definition status_of (account : string) (a : AccountState) : StakingStatus :=
  mkStakingStatus account (poolId a) (bonded a) (unbonding a) (claimableRewards a)
    (bool_decide (poolId a ≠ None)) (balance a).

(** Get the staking status of an account; [n / 1000n] on BigInt truncates. *)
Definition mockGetStakingStatus (account : string) : M StakingStatus :=
  accountState ← getAccountState account;
  if decide (poolId accountState ≠ None ∧ bonded accountState ≠ 0) then
    let bondedBigInt := bonded accountState in
    let rewardIncrement := bondedBigInt ÷ 1000 in
    let accrued :=
      mkAccountState (balance accountState) (poolId accountState)
        (bonded accountState) (unbonding accountState) (unbondingEra accountState)
        (claimableRewards accountState + rewardIncrement) in
    setAccount account accrued;;
    mret (status_of account accrued)
  else
    mret (status_of account accountState).

(** Get pool info. *)
Definition mockGetPoolInfo (p : Z) : M PoolInfo :=
  poolState ← getPoolState p;
  mret (mkPoolInfo (pool_poolId poolState) (pool_bonded poolState)
          (memberCount poolState) (state poolState) (commission poolState)
          (metadata poolState) ("N/A", "N/A", "N/A", "N/A")).

(** ** Sequences of calls *)

Inductive Op : Type :=
  | JoinPool (account : string) (p : Z) (amount : string) (now : Z)
  | BondExtra (account : string) (amount : string)
  | Unbond (account : string) (amount : string) (now : Z)
  | WithdrawUnbonded (account : string) (now : Z)
  | ClaimRewards (account : string) (requested : option Z)
  | GetStatus (account : string)
  | GetPoolInfo (p : Z).

Global Instance Op_eq_dec : EqDecision Op.
Proof. solve_decision. Defined.

Inductive Outcome : Type :=
  | Returned (r : Result)
  | Status (s : StakingStatus)
  | Info (i : PoolInfo)
  | Threw.

Definition outcome_of {A} (f : A → Outcome) (c : Completion A * Ledger)
  : Outcome * Ledger :=
  match c with
  | (Normal a, l) => (f a, l)
  | (Throw, l) => (Threw, l)
  end.

Definition step (op : Op) (l : Ledger) : Outcome * Ledger :=
  match op with
  | JoinPool a p amt now => outcome_of Returned (mockJoinPool a p amt now l)
  | BondExtra a amt => outcome_of Returned (mockBondExtra a amt l)
  | Unbond a amt now => outcome_of Returned (mockUnbond a amt now l)
  | WithdrawUnbonded a now => outcome_of Returned (mockWithdrawUnbonded a now l)
  | ClaimRewards a q => outcome_of Returned (mockClaimRewards a q l)
  | GetStatus a => outcome_of Status (mockGetStakingStatus a l)
  | GetPoolInfo p => outcome_of Info (mockGetPoolInfo p l)
  end.

(** The ledger after a sequence of calls, oldest first. *)
Definition run (ops : list Op) (l : Ledger) : Ledger :=
  fold_left (λ l op, (step op l).2) ops l.

(** What the accessors would hand out: the stored record, or the default
    that a first reference creates. *)
Definition account_view (l : Ledger) (account : string) : AccountState :=
  default defaultAccount (accountStates l !! account).

Definition pool_view (l : Ledger) (p : Z) : PoolState :=
  default (defaultPool p) (poolStates l !! p).

Definition total (a : AccountState) : Z :=
  balance a + bonded a + unbonding a + claimableRewards a.

(** ** Notions used in the statements *)

(** The characters ["0"] to ["9"]. *)
Definition is_decimal_digit (c : ascii) : bool :=
  let n := Z.of_N (N_of_ascii c) in (48 <=? n) && (n <=? 57).

Fixpoint all_decimal (s : string) : bool :=
  match s with
  | EmptyString => true
  | String c rest => is_decimal_digit c && all_decimal rest
  end.

(** The ledger with one record stored or replaced. *)
Definition putAccount (account : string) (a : AccountState) (l : Ledger) : Ledger :=
  mkLedger (<[account := a]> (accountStates l)) (poolStates l).

Definition putPool (p : Z) (ps : PoolState) (l : Ledger) : Ledger :=
  mkLedger (accountStates l) (<[p := ps]> (poolStates l)).

(** The account a call works on. *)
Definition op_account (op : Op) : option string :=
  match op with
  | JoinPool a _ _ _ | BondExtra a _ | Unbond a _ _ | WithdrawUnbonded a _
  | ClaimRewards a _ | GetStatus a => Some a
  | GetPoolInfo _ => None
  end.

(** Bonded funds are always held in a pool. *)
Definition bonded_in_pool (l : Ledger) : Prop :=
  ∀ a, bonded (account_view l a) ≠ 0 → poolId (account_view l a) ≠ None.

(** Membership exactly when funds are bonded, the bonded amount being
    positive. *)
Definition membership_exact (l : Ledger) : Prop :=
  ∀ a, (poolId (account_view l a) = None ∧ bonded (account_view l a) = 0)
       ∨ (poolId (account_view l a) ≠ None ∧ 0 < bonded (account_view l a)).

(** A join bonds a positive amount and a bond-extra a non-negative one (an
    amount that [BigInt] rejects bonds nothing). *)
Definition amount_admissible (op : Op) : Prop :=
  match op with
  | JoinPool _ _ amount _ =>
      match StringToBigInt amount with Some n => 0 < n | None => True end
  | BondExtra _ amount =>
      match StringToBigInt amount with Some n => 0 ≤ n | None => True end
  | _ => True
  end.

(** What a status read accrues. *)
Definition rewardIncrement (a : AccountState) : Z :=
  if decide (poolId a ≠ None ∧ bonded a ≠ 0) then bonded a ÷ 1000 else 0.

(** Every account and every pool shows the same record: nothing but the
    lazy creation of default records may separate the two ledgers. *)
Definition same_views (l l' : Ledger) : Prop :=
  (∀ b, account_view l' b = account_view l b)
  ∧ (∀ q, pool_view l' q = pool_view l q).

(** The view of a pool record that the info query returns. *)
Definition info_of (ps : PoolState) : PoolInfo :=
  mkPoolInfo (pool_poolId ps) (pool_bonded ps) (memberCount ps) (state ps)
    (commission ps) (metadata ps) ("N/A", "N/A", "N/A", "N/A").

(** The accounts whose record names pool [p]. *)
Definition members (l : Ledger) (p : Z) : nat :=
  size (filter (λ kv : string * AccountState, poolId kv.2 = Some p) (accountStates l)).

(** Each pool counts exactly the accounts that name it. *)
Definition member_count_exact (l : Ledger) : Prop :=
  ∀ p, memberCount (pool_view l p) = Z.of_nat (members l p).

(** The two facts that every sequence of calls maintains together. *)
Definition consistent (l : Ledger) : Prop :=
  bonded_in_pool l ∧ member_count_exact l.

(** The ledgers that calls can produce from the empty one. *)
Definition reachable (l : Ledger) : Prop := ∃ ops, l = run ops emptyLedger.

(** The release time of the unbonding funds lies in the future. *)
Definition release_in_future (acc : AccountState) (now : Z) : Prop :=
  match unbondingEra acc with
  | Some t => now < t
  | None => False
  end.

Global Instance release_in_future_dec acc now : Decision (release_in_future acc now).
Proof. unfold release_in_future. destruct (unbondingEra acc); apply _. Defined.

(** The account is already a member of a pool other than [p]. *)
Definition in_other_pool (acc : AccountState) (p : Z) : Prop :=
  match poolId acc with
  | Some q => q ≠ p
  | None => False
  end.

Global Instance in_other_pool_dec acc p : Decision (in_other_pool acc p).
Proof. unfold in_other_pool. destruct (poolId acc); apply _. Defined.

(** The five rejections of a join as the specification lists them, each with
    the condition under which it fires; [pending] says which unbonding
    amounts block a join. *)
Definition join_checks (pending : Z → bool) (ps : PoolState) (acc : AccountState)
    (p n now : Z) : list (bool * ErrorCode) :=
  [ (bool_decide (state ps ≠ Open), POOL_NOT_OPEN);
    (bool_decide (in_other_pool acc p), ALREADY_IN_POOL);
    (pending (unbonding acc) && bool_decide (release_in_future acc now), FUNDS_UNBONDING);
    (bool_decide (balance acc < n + minReserve), INSUFFICIENT_BALANCE);
    (bool_decide (poolId acc = Some p), ALREADY_IN_POOL) ].

(** First failure wins. *)
Definition first_failure (checks : list (bool * ErrorCode)) : option ErrorCode :=
  snd <$> find fst checks.

(** "Unbonding nonzero", the wording of the specification. *)
Definition nonzero_pending (u : Z) : bool := bool_decide (u ≠ 0).

(** "Unbonding strictly positive", the test [unbondingBigInt > 0n]. *)
Definition positive_pending (u : Z) : bool := bool_decide (0 < u).

(** ** Notions used in the further properties *)

(** What an account adds to the total of pool [p]: its bonded amount when its
    record names [p]. *)
Definition contribution (p : Z) (acc : AccountState) : Z :=
  if decide (poolId acc = Some p) then bonded acc else 0.

(** The bonded amounts of the accounts whose record names pool [p], summed. *)
Definition bonded_in (l : Ledger) (p : Z) : Z :=
  map_fold (λ (_ : string) acc s, contribution p acc + s) 0 (accountStates l).

(** Each pool's total is the sum of what its members have bonded. *)
Definition pool_total_exact (l : Ledger) : Prop :=
  ∀ p, pool_bonded (pool_view l p) = bonded_in l p.

(** The four balances of a record are unsigned. *)
Definition unsigned_fields (acc : AccountState) : Prop :=
  0 ≤ balance acc ∧ 0 ≤ bonded acc ∧ 0 ≤ unbonding acc ∧ 0 ≤ claimableRewards acc.

(** The amount of a call, when it takes one and [BigInt] accepts it, is not
    negative. *)
Definition amount_nonnegative (op : Op) : Prop :=
  match op with
  | JoinPool _ _ amount _ | BondExtra _ amount | Unbond _ amount _ =>
      match StringToBigInt amount with Some n => 0 ≤ n | None => True end
  | _ => True
  end.

(** A pool record as [getPoolState] creates it, apart from the two
    aggregates. *)
Definition pool_static (p : Z) (ps : PoolState) : Prop :=
  pool_poolId ps = p ∧ state ps = Open ∧ commission ps = commission (defaultPool p)
  ∧ metadata ps = metadata (defaultPool p).

(** ** The API server in mock mode

    The route handlers that [buildServer] registers in [src/api/server.ts],
    as far as they run when [isMockChainEnabled()] holds.  Where a handler
    leaves the mock branch it goes on to the live chain through the agent and
    replies from there; that reply is outside the model, and the outcome
    [LiveChain] only records that control went that way.  The handlers are
    given the request as Fastify delivers it, with the body parsed or absent;
    a request that Fastify refuses before it calls a handler is answered by
    the error handler of [buildServer] ([errorHandler], [serve]).  A handler
    reads the clock twice, inside the state manager ([now]) and in
    [mockTxHash] ([stamp]). *)

(** The two environment variables that switch the mock on. *)
Record Env : Set := mkEnv {
  MOCK_CHAIN : option string;
  OFFLINE_MODE : option string
}.

Definition isMockChainEnabled (env : Env) : bool :=
  bool_decide (MOCK_CHAIN env = Some "1")
  || bool_decide (MOCK_CHAIN env = Some "true")
  || bool_decide (OFFLINE_MODE env = Some "1")
  || bool_decide (OFFLINE_MODE env = Some "true").

(** [`0xmock_${prefix}_${Date.now().toString(16)}`]. *)
Definition mockTxHash (prefix : string) (stamp : Z) : string :=
  "0xmock_" +:+ prefix +:+ "_"
  +:+ HexadecimalString.NilZero.string_of_int (Z.to_hex_int stamp).

(** The [message] of a reply: a literal of the handler, the message of the
    state manager, or the message of the exception that was caught. *)
Inductive ReplyText : Set :=
  | Literal (s : string)
  | MockMessage (m : Message)
  | ThrownMessage.

(** The [data] of a status reply: the status of the state manager, or the
    literal default object of the handler's [catch] block. *)
Inductive StatusData : Set :=
  | MockStatus (s : StakingStatus)
  | DefaultStatus (account : string).

Record Reply : Set := mkReply {
  statusCode : Z;
  reply_success : bool;
  reply_error : option string;
  reply_message : option ReplyText;
  txHash : option string;
  data : option StatusData
}.

Inductive RouteOutcome : Set :=
  | Sent (r : Reply)
  | LiveChain.

(** [reply.code(400).send({ success: false, error, message })]. *)
Definition send400 (err msg : string) : Reply :=
  mkReply 400 false (Some err) (Some (Literal msg)) None None.

(** The [catch] block of a POST handler. *)
Definition send500 (err : string) : Reply :=
  mkReply 500 false (Some err) (Some ThrownMessage) None None.

(** [result.error || fallback]; the error codes are non-empty strings. *)
Definition error_or (e : option ErrorCode) (fallback : string) : string :=
  match e with
  | Some c => error_string c
  | None => fallback
  end.

(** [(request.query as { account?: string }).account || '5DummyAccountForMockMode']. *)
Definition account_or_dummy (account : option string) : string :=
  match account with
  | Some EmptyString | None => "5DummyAccountForMockMode"
  | Some a => a
  end.

(** [!amount || amount.trim() === ''] on a present amount. *)
Definition blank (amount : string) : bool :=
  bool_decide (amount = "") || bool_decide (trimEnd (trimStart amount) = "").

(** What every POST handler does with the result of the state manager, under
    its [try]: 400 with the error code for a rejection, 200 with a mock
    transaction hash for a success, and 500 from the [catch] block when the
    call threw. *)
Definition reply_of_mock (fallback prefix failed : string) (stamp : Z)
    (c : Completion Result * Ledger) : RouteOutcome * Ledger :=
  match c with
  | (Normal result, l') =>
      if negb (success result) then
        (Sent (mkReply 400 false (Some (error_or (error result) fallback))
                 (Some (MockMessage (message result))) None None), l')
      else
        (Sent (mkReply 200 true None (Some (MockMessage (message result)))
                 (Some (mockTxHash prefix stamp)) None), l')
  | (Throw, l') => (Sent (send500 failed), l')
  end.

Record JoinPoolParams : Set := mkJoinPoolParams {
  params_poolId : option Z;
  params_amount : option string
}.

(** [POST /staking/join-pool]; destructuring a missing body throws. *)
Definition joinPoolRoute (env : Env) (account : option string)
    (body : option JoinPoolParams) (now stamp : Z) (l : Ledger) : RouteOutcome * Ledger :=
  match body with
  | None => (Sent (send500 "Failed to join pool"), l)
  | Some params =>
      match params_poolId params with
      | Some p =>
          if decide (p ≤ 0) then
            (Sent (send400 "Invalid pool ID" "Pool ID must be a positive number"), l)
          else
            match params_amount params with
            | Some amount =>
                if blank amount then
                  (Sent (send400 "Invalid amount"
                           "Amount is required (in Planck - smallest unit)"), l)
                else if isMockChainEnabled env then
                  reply_of_mock "JOIN_POOL_FAILED" "join_pool" "Failed to join pool" stamp
                    (mockJoinPool (account_or_dummy account) p amount now l)
                else (LiveChain, l)
            | None =>
                (Sent (send400 "Invalid amount"
                         "Amount is required (in Planck - smallest unit)"), l)
            end
      | None => (Sent (send400 "Invalid pool ID" "Pool ID must be a positive number"), l)
      end
  end.

(** [POST /staking/bond-extra]; the body holds the optional [amount]. *)
Definition bondExtraRoute (env : Env) (account : option string)
    (body : option (option string)) (stamp : Z) (l : Ledger) : RouteOutcome * Ledger :=
  match body with
  | None => (Sent (send500 "Failed to bond extra"), l)
  | Some (Some amount) =>
      if blank amount then
        (Sent (send400 "Invalid amount" "Amount is required (in Planck - smallest unit)"), l)
      else if isMockChainEnabled env then
        reply_of_mock "BOND_EXTRA_FAILED" "bond_extra" "Failed to bond extra" stamp
          (mockBondExtra (account_or_dummy account) amount l)
      else (LiveChain, l)
  | Some None =>
      (Sent (send400 "Invalid amount" "Amount is required (in Planck - smallest unit)"), l)
  end.

(** [POST /staking/unbond]; the amount is checked inside the mock branch. *)
Definition unbondRoute (env : Env) (account : option string)
    (body : option (option string)) (now stamp : Z) (l : Ledger) : RouteOutcome * Ledger :=
  if isMockChainEnabled env then
    match body with
    | None => (Sent (send500 "Failed to unbond"), l)
    | Some (Some amount) =>
        if blank amount then (Sent (send400 "Invalid amount" "Amount is required"), l)
        else
          reply_of_mock "UNBOND_FAILED" "unbond" "Failed to unbond" stamp
            (mockUnbond (account_or_dummy account) amount now l)
    | Some None => (Sent (send400 "Invalid amount" "Amount is required"), l)
    end
  else (LiveChain, l).

(** [POST /staking/withdraw-unbonded]. *)
Definition withdrawUnbondedRoute (env : Env) (account : option string) (now stamp : Z)
    (l : Ledger) : RouteOutcome * Ledger :=
  if isMockChainEnabled env then
    reply_of_mock "WITHDRAW_FAILED" "withdraw_unbonded" "Failed to withdraw unbonded" stamp
      (mockWithdrawUnbonded (account_or_dummy account) now l)
  else (LiveChain, l).

(** [POST /staking/claim-rewards]; [request.body?.poolId]. *)
Definition claimRewardsRoute (env : Env) (account : option string)
    (body : option (option Z)) (stamp : Z) (l : Ledger) : RouteOutcome * Ledger :=
  if isMockChainEnabled env then
    reply_of_mock "CLAIM_REWARDS_FAILED" "claim_rewards" "Failed to claim rewards" stamp
      (mockClaimRewards (account_or_dummy account) (mjoin body) l)
  else (LiveChain, l).

(** [GET /staking/status]; its [catch] block answers with a default status. *)
Definition stakingStatusRoute (env : Env) (account : option string) (l : Ledger)
  : RouteOutcome * Ledger :=
  match account with
  | Some EmptyString | None =>
      (Sent (send400 "Missing account parameter" "Account address is required"), l)
  | Some a =>
      if isMockChainEnabled env then
        match mockGetStakingStatus a l with
        | (Normal status, l') =>
            (Sent (mkReply 200 true None None None (Some (MockStatus status))), l')
        | (Throw, l') =>
            (Sent (mkReply 200 true None None None (Some (DefaultStatus a))), l')
        end
      else (LiveChain, l)
  end.

(** A request to one of the six routes. *)
Inductive ApiRequest : Set :=
  | PostJoinPool (account : option string) (body : option JoinPoolParams)
  | PostBondExtra (account : option string) (body : option (option string))
  | PostUnbond (account : option string) (body : option (option string))
  | PostWithdrawUnbonded (account : option string)
  | PostClaimRewards (account : option string) (body : option (option Z))
  | GetStakingStatus (account : option string).

Definition handle (env : Env) (req : ApiRequest) (now stamp : Z) (l : Ledger)
  : RouteOutcome * Ledger :=
  match req with
  | PostJoinPool account body => joinPoolRoute env account body now stamp l
  | PostBondExtra account body => bondExtraRoute env account body stamp l
  | PostUnbond account body => unbondRoute env account body now stamp l
  | PostWithdrawUnbonded account => withdrawUnbondedRoute env account now stamp l
  | PostClaimRewards account body => claimRewardsRoute env account body stamp l
  | GetStakingStatus account => stakingStatusRoute env account l
  end.

(** The name that a POST route puts into its transaction hash. *)
Definition route_name (req : ApiRequest) : option string :=
  match req with
  | PostJoinPool _ _ => Some "join_pool"
  | PostBondExtra _ _ => Some "bond_extra"
  | PostUnbond _ _ => Some "unbond"
  | PostWithdrawUnbonded _ => Some "withdraw_unbonded"
  | PostClaimRewards _ _ => Some "claim_rewards"
  | GetStakingStatus _ => None
  end.

(** Every character is white space. *)
Fixpoint all_space (s : string) : bool :=
  match s with
  | EmptyString => true
  | String c rest => is_StrWhiteSpaceChar c && all_space rest
  end.

(** An amount field that is absent, empty or white space only. *)
Definition no_amount (amount : option string) : Prop :=
  match amount with
  | Some s => all_space s = true
  | None => True
  end.

(** A pool id field that is absent or not positive. *)
Definition no_pool_id (p : option Z) : Prop :=
  match p with
  | Some z => z ≤ 0
  | None => True
  end.

(** The handler answered with this status code and this success flag. *)
Definition replied (o : RouteOutcome * Ledger) (code : Z) (flag : bool) : Prop :=
  ∃ rep, o.1 = Sent rep ∧ statusCode rep = code ∧ reply_success rep = flag.

(** [Number.MAX_SAFE_INTEGER]. *)
Definition MAX_SAFE_INTEGER : Z := 2 ^ 53 - 1.

(** The integers that a JavaScript number holds exactly and prints in full. *)
Definition safe_integer (z : Z) : Prop := - MAX_SAFE_INTEGER ≤ z ≤ MAX_SAFE_INTEGER.

(** The error that Fastify hands to the error handler: its optional
    [statusCode], its [name] and its [message]. *)
Record ServerError : Set := mkServerError {
  error_statusCode : option Z;
  error_name : string;
  error_message : string
}.

(** [x || fallback] on a string. *)
Definition string_or (x fallback : string) : string :=
  match x with
  | EmptyString => fallback
  | _ => x
  end.

(** The error handler that [buildServer] sets:
    [reply.code(error.statusCode || 500).send({ success: false,
    error: error.name || 'Internal Server Error',
    message: error.message || 'An unexpected error occurred' })]. *)
Definition errorHandler (e : ServerError) : Reply :=
  mkReply
    (match error_statusCode e with
     | Some c => if decide (c = 0) then 500 else c
     | None => 500
     end)
    false
    (Some (string_or (error_name e) "Internal Server Error"))
    (Some (Literal (string_or (error_message e) "An unexpected error occurred")))
    None None.

(** What Fastify does with a request to one of the six routes: it calls the
    handler, or it refuses the request beforehand (unsupported media type,
    body too large, malformed JSON) and calls the error handler. *)
Inductive Delivery : Set :=
  | Delivered (req : ApiRequest)
  | Refused (e : ServerError).

Definition serve (env : Env) (d : Delivery) (now stamp : Z) (l : Ledger)
  : RouteOutcome * Ledger :=
  match d with
  | Delivered req => handle env req now stamp l
  | Refused e => (Sent (errorHandler e), l)
  end.

(** * Properties *)

(** ** Unsigned decimal amounts *)

Lemma digit_value_decimal c d :
  digit_value c = Some d → d < 10 → is_decimal_digit c = true.
Proof.
  unfold digit_value, is_decimal_digit. cbn zeta.
  set (n := Z.of_N (N_of_ascii c)).
  destruct ((48 <=? n) && (n <=? 57)) eqn:E1; [done|].
  destruct ((97 <=? n) && (n <=? 102)) eqn:E2.
  { intros [= <-] Hd. apply andb_true_iff in E2 as [? ?]. lia. }
  destruct ((65 <=? n) && (n <=? 70)) eqn:E3; [|done].
  intros [= <-] Hd. apply andb_true_iff in E3 as [? ?]. lia.
Qed.

Lemma parse_digits_all_decimal s acc n :
  parse_digits 10 acc s = Some n → all_decimal s = true.
Proof.
  revert acc. induction s as [|c rest IH]; intros acc; simpl; [done|].
  destruct (digit_value c) as [d|] eqn:Hd; [|done].
  destruct (d <? 10) eqn:Hlt; [|done].
  intros H. rewrite (digit_value_decimal c d Hd) by lia. simpl. by eapply IH.
Qed.

Lemma decimal_digit_not_space c :
  is_decimal_digit c = true → is_StrWhiteSpaceChar c = false.
Proof.
  unfold is_decimal_digit, is_StrWhiteSpaceChar. cbn zeta.
  set (n := Z.of_N (N_of_ascii c)). intros H.
  apply andb_true_iff in H as [? ?].
  rewrite !orb_false_iff, andb_false_iff. lia.
Qed.

Lemma trimStart_decimal s : all_decimal s = true → trimStart s = s.
Proof.
  destruct s as [|c rest]; simpl; [done|].
  intros H. apply andb_true_iff in H as [Hc _].
  by rewrite (decimal_digit_not_space c Hc).
Qed.

Lemma trimEnd_decimal s : all_decimal s = true → trimEnd s = s.
Proof.
  induction s as [|c rest IH]; simpl; [done|].
  intros H. apply andb_true_iff in H as [Hc Hrest].
  rewrite (IH Hrest), (decimal_digit_not_space c Hc). by destruct rest.
Qed.

(** A decimal digit is no sign, and after a leading ["0"] it is no radix
    letter, so the text is read as a decimal numeral. *)
Lemma StringToBigInt_decimal_head c rest :
  is_decimal_digit c = true → all_decimal rest = true →
  match String c rest with
  | EmptyString => Some 0
  | String "0" (String ("x" | "X") digits) => parse_numeral 16 digits
  | String "0" (String ("o" | "O") digits) => parse_numeral 8 digits
  | String "0" (String ("b" | "B") digits) => parse_numeral 2 digits
  | String "+" digits => parse_numeral 10 digits
  | String "-" digits => Z.opp <$> parse_numeral 10 digits
  | digits => parse_numeral 10 digits
  end = parse_numeral 10 (String c rest).
Proof.
  intros Hc Hrest.
  destruct c as [[] [] [] [] [] [] [] []]; try discriminate Hc; try reflexivity.
  destruct rest as [|c2 rest2]; [reflexivity|].
  simpl in Hrest. apply andb_true_iff in Hrest as [Hc2 _].
  destruct c2 as [[] [] [] [] [] [] [] []]; try discriminate Hc2; reflexivity.
Qed.

(** Every amount the specification admits is read by [BigInt] as its value. *)
Lemma unsigned_decimal_accepted s n :
  parse_unsigned_decimal s = Some n → StringToBigInt s = Some n ∧ 0 ≤ n.
Proof.
  unfold parse_unsigned_decimal. intros H.
  assert (Hall : all_decimal s = true).
  { destruct s; [discriminate|]. by eapply parse_digits_all_decimal. }
  split.
  - unfold StringToBigInt. rewrite (trimStart_decimal s Hall), (trimEnd_decimal s Hall).
    destruct s as [|c rest]; [discriminate|].
    simpl in Hall. apply andb_true_iff in Hall as [Hc Hrest].
    by rewrite (StringToBigInt_decimal_head c rest Hc Hrest).
  - destruct s as [|c rest]; [discriminate|]. unfold parse_numeral in H.
    assert (Hnn : ∀ t acc m, 0 ≤ acc → parse_digits 10 acc t = Some m → 0 ≤ m).
    { induction t as [|c' t IH]; intros acc m Hacc; simpl.
      - intros [= <-]. done.
      - destruct (digit_value c') as [d|] eqn:Hd; [|done].
        destruct (d <? 10); [|done].
        apply IH. unfold digit_value in Hd. cbn zeta in Hd.
        repeat match type of Hd with
               | (if ?b then _ else _) = _ => destruct b eqn:?
               end; try discriminate; injection Hd as <-;
          match goal with H : (_ && _) = true |- _ => apply andb_true_iff in H as [? ?] end;
          lia. }
    by eapply (Hnn _ 0).
Qed.

(** ** Reasoning about the accessors *)

Lemma ledger_eq (l1 l2 : Ledger) :
  accountStates l1 = accountStates l2 → poolStates l1 = poolStates l2 → l1 = l2.
Proof. destruct l1, l2; simpl; intros; subst; reflexivity. Qed.

Section Views.
Implicit Types (l : Ledger) (a b : string) (p q : Z)
               (x : AccountState) (ps : PoolState).

Lemma account_view_putAccount a x l b :
  account_view (putAccount a x l) b = if decide (a = b) then x else account_view l b.
Proof.
  unfold account_view, putAccount; simpl.
  case_decide; subst; [by rewrite lookup_insert_eq | by rewrite lookup_insert_ne].
Qed.

Lemma account_view_putPool p ps l b :
  account_view (putPool p ps l) b = account_view l b.
Proof. reflexivity. Qed.

Lemma pool_view_putPool p ps l q :
  pool_view (putPool p ps l) q = if decide (p = q) then ps else pool_view l q.
Proof.
  unfold pool_view, putPool; simpl.
  case_decide; subst; [by rewrite lookup_insert_eq | by rewrite lookup_insert_ne].
Qed.

Lemma pool_view_putAccount a x l q :
  pool_view (putAccount a x l) q = pool_view l q.
Proof. reflexivity. Qed.

Lemma account_view_lookup l a x :
  accountStates l !! a = Some x → account_view l a = x.
Proof. unfold account_view; intros ->; reflexivity. Qed.

Lemma pool_view_lookup l p ps :
  poolStates l !! p = Some ps → pool_view l p = ps.
Proof. unfold pool_view; intros ->; reflexivity. Qed.

(** Re-storing the record that is already visible changes no view. *)
Lemma putAccount_view_id a l :
  accountStates l !! a = Some (account_view l a) → putAccount a (account_view l a) l = l.
Proof. intros H. apply ledger_eq; simpl; [by apply insert_id | done]. Qed.

Lemma putAccount_putAccount a x y l :
  putAccount a y (putAccount a x l) = putAccount a y l.
Proof. apply ledger_eq; simpl; [by rewrite insert_insert_eq | done]. Qed.

Lemma putPool_putPool p ps ps' l :
  putPool p ps' (putPool p ps l) = putPool p ps' l.
Proof. apply ledger_eq; simpl; [done | by rewrite insert_insert_eq]. Qed.

Lemma putPool_putAccount p ps a x l :
  putPool p ps (putAccount a x l) = putAccount a x (putPool p ps l).
Proof. reflexivity. Qed.
End Views.

(** The equations of the monad at each primitive. *)
Section Equations.
Context {B : Type}.
Implicit Types (l : Ledger) (k : Z → M B).

Lemma bind_getAccountState a (k : AccountState → M B) l :
  (getAccountState a ≫= k) l = k (account_view l a) (putAccount a (account_view l a) l).
Proof.
  unfold mbind, M_bind, bind, getAccountState, account_view, putAccount.
  destruct (accountStates l !! a) as [x|] eqn:E; simpl; [|done].
  rewrite insert_id by done. by destruct l.
Qed.

Lemma bind_getPoolState p (k : PoolState → M B) l :
  (getPoolState p ≫= k) l = k (pool_view l p) (putPool p (pool_view l p) l).
Proof.
  unfold mbind, M_bind, bind, getPoolState, pool_view, putPool.
  destruct (poolStates l !! p) as [x|] eqn:E; simpl; [|done].
  rewrite insert_id by done. by destruct l.
Qed.

Lemma bind_BigInt s k l :
  (BigInt s ≫= k) l =
  match StringToBigInt s with Some n => k n l | None => (Throw, l) end.
Proof. unfold mbind, M_bind, bind, BigInt. by destruct (StringToBigInt s). Qed.

Lemma bind_setAccount a x (k : unit → M B) l :
  (setAccount a x ≫= k) l = k tt (putAccount a x l).
Proof. reflexivity. Qed.

Lemma bind_setPool p ps (k : unit → M B) l :
  (setPool p ps ≫= k) l = k tt (putPool p ps l).
Proof. reflexivity. Qed.

Lemma mret_run (v : B) l : (mret v : M B) l = (Normal v, l).
Proof. reflexivity. Qed.
End Equations.

(** Unfold one call into its branches. *)
Ltac run_call :=
  repeat first
    [ rewrite bind_getAccountState
    | rewrite bind_getPoolState
    | rewrite bind_BigInt
    | rewrite bind_setAccount
    | rewrite bind_setPool
    | rewrite mret_run
    | progress cbn beta iota ].

Ltac views :=
  repeat first
    [ rewrite account_view_putAccount
    | rewrite account_view_putPool
    | rewrite pool_view_putPool
    | rewrite pool_view_putAccount ].

Ltac solve_views :=
  views; repeat case_decide; subst; try done; try congruence.

(** Split [step op l] into the branches of the call. *)
Ltac branches :=
  repeat first
    [ progress run_call
    | match goal with
      | |- context [match StringToBigInt ?s with _ => _ end] =>
          destruct (StringToBigInt s) eqn:?
      | |- context [match poolId ?x with _ => _ end] =>
          destruct (poolId x) eqn:?
      | |- context [decide ?P] => destruct (decide P)
      end ].

Ltac step_cases op :=
  destruct op; unfold step, mockJoinPool, mockBondExtra, mockUnbond,
    mockWithdrawUnbonded, mockClaimRewards, mockGetStakingStatus, mockGetPoolInfo;
  branches; unfold outcome_of; cbn [fst snd].

(** *** Frame: a call leaves every other account as it was *)
Lemma step_other_account op l b :
  op_account op ≠ Some b → account_view (step op l).2 b = account_view l b.
Proof.
  intros Hb.
  step_cases op; views; repeat case_decide; subst; simpl in Hb; congruence.
Qed.

(** ** Runs *)


Lemma run_snoc ops op l : run (ops ++ [op]) l = (step op (run ops l)).2.
Proof. unfold run. by rewrite fold_left_app. Qed.

(** A property of every account's view that each call preserves holds after
    every run from the empty ledger. *)
Lemma run_invariant (I : Ledger → Prop) (ok_op : Op → Prop) :
  I emptyLedger →
  (∀ op l, ok_op op → I l → I (step op l).2) →
  ∀ ops, Forall ok_op ops → I (run ops emptyLedger).
Proof.
  intros H0 Hstep ops. induction ops as [|op ops IH] using rev_ind; intros Hok.
  - exact H0.
  - rewrite run_snoc. apply Forall_app in Hok as [Hops Hop].
    apply Hstep; [by inversion Hop | by apply IH].
Qed.

Lemma account_view_empty a : account_view emptyLedger a = defaultAccount.
Proof. reflexivity. Qed.

Lemma pool_view_empty p : pool_view emptyLedger p = defaultPool p.
Proof. reflexivity. Qed.

(** ** Membership and bonded funds *)

Lemma step_bonded_in_pool op l : bonded_in_pool l → bonded_in_pool (step op l).2.
Proof.
  intros H b. specialize (H b). revert H.
  step_cases op; views; repeat case_decide; subst; simpl; try tauto; try congruence.
  all: intros; try case_bool_decide; simpl in *; congruence.
Qed.

Lemma step_membership_exact op l :
  amount_admissible op → membership_exact l → membership_exact (step op l).2.
Proof.
  intros Hop H b. specialize (H b). revert H Hop.
  step_cases op; views; repeat case_decide; subst; simpl;
    try tauto; try congruence.
  all: try rewrite Heqo; try case_bool_decide; simpl; intros [[? ?]|[? ?]] ?;
    first [ left; split; [congruence | lia] | right; split; [congruence | lia]
          | naive_solver lia ].
Qed.

Lemma run_bonded_in_pool ops : bonded_in_pool (run ops emptyLedger).
Proof.
  apply (run_invariant bonded_in_pool (λ _, True)).
  - intros a. rewrite account_view_empty. simpl. congruence.
  - intros op l _. apply step_bonded_in_pool.
  - by apply Forall_forall.
Qed.

Lemma run_membership_exact ops :
  Forall amount_admissible ops → membership_exact (run ops emptyLedger).
Proof.
  apply (run_invariant membership_exact amount_admissible).
  - intros a. rewrite account_view_empty. by left.
  - apply step_membership_exact.
Qed.

(** C1 at the failing input: from the empty ledger, joining pool 1 with the
    amount ["0"] passes every check of [mockJoinPool] (no check looks at the
    sign or size of the amount), so the account is a member of pool 1 while
    its bonded amount is zero; [poolId] is present although [bonded] is not
    nonzero. *)
Lemma zero_join_member_without_bond :
  let acc := account_view (run [JoinPool "a" 1 "0" 0] emptyLedger) "a" in
  poolId acc = Some 1 ∧ bonded acc = 0
  ∧ ¬ (poolId acc ≠ None ↔ bonded acc ≠ 0).
Proof.
  vm_compute. split; [reflexivity|]. split; [reflexivity|].
  intros [H _]. apply H; [discriminate | reflexivity].
Qed.

(** What the code does guarantee about membership: after every sequence of
    calls from the empty ledger an account is associated with at most one
    pool id and a nonzero bonded amount implies membership; when every join
    bonds a positive amount and every bond-extra a non-negative one,
    membership holds exactly when the bonded amount is nonzero. *)
Theorem single_membership (ops : list Op) (a : string) :
  let acc := account_view (run ops emptyLedger) a in
  (∀ p q, poolId acc = Some p → poolId acc = Some q → p = q)
  ∧ (bonded acc ≠ 0 → poolId acc ≠ None)
  ∧ (Forall amount_admissible ops → (poolId acc ≠ None ↔ bonded acc ≠ 0)).
Proof.
  cbn zeta. split; [congruence|]. split.
  - apply run_bonded_in_pool.
  - intros Hops. destruct (run_membership_exact ops Hops a) as [[Hp Hb]|[Hp Hb]].
    + rewrite Hp, Hb. tauto.
    + split; [lia | done].
Qed.

Lemma single_membership_witness :
  let ops := [JoinPool "a" 1 "1000" 0; BondExtra "a" "0"; Unbond "a" "1000" 5] in
  let acc := account_view (run ops emptyLedger) "a" in
  Forall amount_admissible ops ∧ (poolId acc ≠ None ↔ bonded acc ≠ 0).
Proof.
  assert (H : Forall amount_admissible
                [JoinPool "a" 1 "1000" 0; BondExtra "a" "0"; Unbond "a" "1000" 5]).
  { repeat constructor; simpl; lia. }
  split; [exact H|].
  exact (proj2 (proj2 (single_membership _ "a")) H).
Defined.

(** ** Conservation *)

(** C2 at the failing input: a join with the amount ["-5000"] is accepted
    and leaves [bonded = -5000]; the status read that follows accrues
    [-5000n / 1000n = -5n], which lowers the sum of the four balances of the
    account by 5. *)
Lemma status_read_lowers_total :
  let l := run [JoinPool "a" 1 "-5000" 0] emptyLedger in
  total (account_view l "a") = 10000000000000
  ∧ total (account_view (step (GetStatus "a") l).2 "a") = 9999999999995
  ∧ ¬ (total (account_view l "a") ≤ total (account_view (step (GetStatus "a") l).2 "a")).
Proof. vm_compute. repeat split; congruence. Qed.

(** What the code does guarantee about the sum: every call leaves the sum of
    the four balances of every account unchanged, except a status read, which
    adds [bonded / 1000] (truncated) to the sum of its own account when that
    account is a member with a nonzero bonded amount; so the sum never
    decreases for an account whose bonded amount is non-negative. *)
Theorem conservation (op : Op) (l : Ledger) (a : string) :
  let acc := account_view l a in
  let acc' := account_view (step op l).2 a in
  total acc' = total acc + (if decide (op = GetStatus a) then rewardIncrement acc else 0)
  ∧ (0 ≤ bonded acc → total acc ≤ total acc').
Proof.
  cbn zeta.
  assert (H : total (account_view (step op l).2 a)
              = total (account_view l a)
                + (if decide (op = GetStatus a) then rewardIncrement (account_view l a) else 0)).
  { unfold rewardIncrement.
    step_cases op; views; repeat case_decide; subst; unfold total; simpl;
      try lia; try congruence; try tauto.
    all: try case_bool_decide; simpl; try lia. }
  split; [exact H|]. intros Hb. rewrite H.
  case_decide; [|lia]. unfold rewardIncrement. case_decide; [|lia].
  pose proof (Z.quot_pos (bonded (account_view l a)) 1000 Hb). lia.
Qed.

Lemma conservation_witness :
  let l := run [JoinPool "a" 1 "1000" 0] emptyLedger in
  0 ≤ bonded (account_view l "a")
  ∧ total (account_view l "a") ≤ total (account_view (step (GetStatus "a") l).2 "a").
Proof.
  assert (H : 0 ≤ bonded (account_view (run [JoinPool "a" 1 "1000" 0] emptyLedger) "a")).
  { vm_compute. congruence. }
  split; [exact H|].
  exact (proj2 (conservation (GetStatus "a") _ "a") H).
Defined.

(** ** Unchanged ledgers *)

Lemma same_views_refl l : same_views l l.
Proof. by split. Qed.

Lemma same_views_touch_account a l : same_views l (putAccount a (account_view l a) l).
Proof.
  split; intros; views; [|done]. by case_decide; subst.
Qed.

Lemma same_views_touch_pool p l : same_views l (putPool p (pool_view l p) l).
Proof.
  split; intros; views; [done|]. by case_decide; subst.
Qed.

Lemma same_views_trans l1 l2 l3 : same_views l1 l2 → same_views l2 l3 → same_views l1 l3.
Proof.
  intros [Ha Hp] [Ha' Hp']; split; intros.
  - by rewrite Ha', Ha.
  - by rewrite Hp', Hp.
Qed.

Create HintDb ledger.

#[local] Hint Resolve same_views_refl same_views_touch_account same_views_touch_pool
  : ledger.

Lemma same_views_touch_both a p l :
  same_views l (putPool p (pool_view l p) (putAccount a (account_view l a) l)).
Proof.
  eapply same_views_trans; [apply (same_views_touch_account a)|].
  apply (same_views_touch_pool p (putAccount a (account_view l a) l)).
Qed.

#[local] Hint Resolve same_views_touch_both : ledger.

(** ** Amounts that [BigInt] rejects *)

(** C3 at the failing input: ["abc"] is not an unsigned decimal integer, and
    each of the three amount-taking calls throws on it instead of returning
    a failure outcome. *)
Lemma unparsable_amount_throws :
  parse_unsigned_decimal "abc" = None
  ∧ (step (JoinPool "a" 1 "abc" 0) emptyLedger).1 = Threw
  ∧ (step (BondExtra "a" "abc") emptyLedger).1 = Threw
  ∧ (step (Unbond "a" "abc" 0) emptyLedger).1 = Threw
  ∧ ¬ (∃ r, (step (JoinPool "a" 1 "abc" 0) emptyLedger).1 = Returned r
            ∧ success r = false).
Proof.
  repeat split; try reflexivity. intros [r [H _]]. vm_compute in H. discriminate.
Qed.

(** A signed amount is no unsigned decimal integer either, and is accepted. *)
Lemma signed_amount_accepted :
  parse_unsigned_decimal "-5" = None
  ∧ (step (JoinPool "a" 1 "-5" 0) emptyLedger).1 = Returned (ok (MsgJoined 1 (-5))).
Proof. split; reflexivity. Qed.

(** In general: on an amount string that [BigInt] rejects, each of the three
    amount-taking calls throws the [SyntaxError] instead of returning an
    outcome, and leaves the record of every account and pool as it was. *)
Theorem rejected_amount_throws (l : Ledger) (a : string) (p : Z) (amount : string)
    (now : Z) :
  StringToBigInt amount = None →
  Forall (λ op, (step op l).1 = Threw ∧ same_views l (step op l).2)
    [JoinPool a p amount now; BondExtra a amount; Unbond a amount now].
Proof.
  intros H. rewrite !Forall_cons.
  split; [|split; [|split; [|apply Forall_nil_2]]].
  all: unfold step, mockJoinPool, mockBondExtra, mockUnbond; run_call;
    rewrite H; unfold outcome_of; cbn [fst snd]; (split; [reflexivity|]).
  all: views; auto using same_views_touch_both with ledger.
Qed.

Lemma rejected_amount_throws_witness :
  StringToBigInt "1.5" = None
  ∧ Forall (λ op, (step op emptyLedger).1 = Threw ∧ same_views emptyLedger (step op emptyLedger).2)
      [JoinPool "a" 1 "1.5" 0; BondExtra "a" "1.5"; Unbond "a" "1.5" 0].
Proof.
  split; [reflexivity|].
  apply (rejected_amount_throws emptyLedger "a" 1 "1.5" 0). reflexivity.
Defined.

(** An amount that [BigInt] accepts, every unsigned decimal integer among
    them, makes none of the three calls throw. *)
Lemma parsed_amount_returns (l : Ledger) (a : string) (p : Z) (amount : string)
    (n now : Z) :
  StringToBigInt amount = Some n →
  Forall (λ op, ∃ r, (step op l).1 = Returned r)
    [JoinPool a p amount now; BondExtra a amount; Unbond a amount now].
Proof.
  intros H. rewrite !Forall_cons.
  split; [|split; [|split; [|apply Forall_nil_2]]].
  all: unfold step, mockJoinPool, mockBondExtra, mockUnbond; run_call;
    rewrite H; branches; unfold outcome_of; cbn [fst]; eauto.
Qed.

(** ** Withdrawing unbonded funds *)

(** C5: with nothing unbonding the withdrawal fails [NO_UNBONDED_FUNDS];
    with a nonzero unbonding amount it fails
    [UNBONDING_PERIOD_NOT_COMPLETE] strictly before the release time, leaving
    every record as it was, and from the release time on it succeeds, moves
    the whole unbonding amount to the free balance, zeroes [unbonding] and
    clears the release time. *)
Theorem withdraw_gate (l : Ledger) (a : string) (now : Z) :
  let acc := account_view l a in
  let r := (mockWithdrawUnbonded a now l).1 in
  let l' := (mockWithdrawUnbonded a now l).2 in
  (unbonding acc = 0 →
     r = Normal (fail MsgNoUnbondedFunds NO_UNBONDED_FUNDS) ∧ same_views l l')
  ∧ (∀ t, unbonding acc ≠ 0 → unbondingEra acc = Some t → now < t →
     r = Normal (fail (MsgUnbondingNotComplete (daysLeft t now))
                   UNBONDING_PERIOD_NOT_COMPLETE)
     ∧ same_views l l')
  ∧ (∀ t, unbonding acc ≠ 0 → unbondingEra acc = Some t → t ≤ now →
     r = Normal (ok (MsgWithdrew (unbonding acc)))
     ∧ account_view l' a
       = mkAccountState (balance acc + unbonding acc) (poolId acc) (bonded acc)
           0 None (claimableRewards acc)
     ∧ (∀ b, b ≠ a → account_view l' b = account_view l b)
     ∧ (∀ q, pool_view l' q = pool_view l q)).
Proof.
  cbn zeta. unfold mockWithdrawUnbonded. run_call.
  split; [|split].
  - intros H0. rewrite decide_True by done. run_call. cbn [fst snd].
    split; [done | auto with ledger].
  - intros t Hne Ht Hlt. rewrite decide_False by done. rewrite Ht. change (or_zero (Some t)) with t.
    rewrite decide_True by done. run_call. cbn [fst snd].
    split; [done | auto with ledger].
  - intros t Hne Ht Hle. rewrite decide_False by done. rewrite Ht. change (or_zero (Some t)) with t.
    rewrite decide_False by lia. run_call. cbn [fst snd].
    split; [done|]. split; [by solve_views|].
    split; [|done]. intros b Hb. by solve_views.
Qed.

Lemma withdraw_gate_witness :
  let l := run [JoinPool "a" 1 "1000" 0; Unbond "a" "400" 10] emptyLedger in
  let early := mockWithdrawUnbonded "a" 20 l in
  let late := mockWithdrawUnbonded "a" (10 + UNBONDING_PERIOD_MS) l in
  (early.1 = Normal (fail (MsgUnbondingNotComplete 28) UNBONDING_PERIOD_NOT_COMPLETE)
   ∧ same_views l early.2)
  ∧ late.1 = Normal (ok (MsgWithdrew 400))
  ∧ unbonding (account_view late.2 "a") = 0.
Proof.
  cbn zeta.
  set (l := run [JoinPool "a" 1 "1000" 0; Unbond "a" "400" 10] emptyLedger).
  assert (Hu : unbonding (account_view l "a") ≠ 0) by (vm_compute; congruence).
  assert (He : unbondingEra (account_view l "a") = Some (10 + UNBONDING_PERIOD_MS))
    by reflexivity.
  split.
  - apply (proj1 (proj2 (withdraw_gate l "a" 20)) _ Hu He). vm_compute. reflexivity.
  - destruct (proj2 (proj2 (withdraw_gate l "a" (10 + UNBONDING_PERIOD_MS))) _ Hu He)
      as (Hr & Hv & _); [lia|].
    split; [exact Hr|]. rewrite Hv. reflexivity.
Defined.

(** ** Status reads *)

Lemma rewardIncrement_zero acc :
  rewardIncrement acc = 0 ↔ poolId acc = None ∨ Z.abs (bonded acc) < 1000.
Proof.
  unfold rewardIncrement. case_decide as Hd.
  - destruct Hd as [Hp Hb]. rewrite Z.quot_small_iff by done.
    change (Z.abs 1000) with 1000. split; [by right | by intros [?|?]].
  - split; [intros _|done].
    destruct (poolId acc) eqn:Hp; [|by left]. right.
    destruct (decide (bonded acc = 0)) as [->|Hb]; [done|].
    exfalso. apply Hd. split; [done | done].
Qed.

(** The ledger after a status read. *)
Lemma status_read_ledger l a :
  (mockGetStakingStatus a l).2
  = putAccount a
      (mkAccountState (balance (account_view l a)) (poolId (account_view l a))
         (bonded (account_view l a)) (unbonding (account_view l a))
         (unbondingEra (account_view l a))
         (claimableRewards (account_view l a) + rewardIncrement (account_view l a)))
      l.
Proof.
  unfold mockGetStakingStatus, rewardIncrement. run_call.
  case_decide; run_call; cbn [snd].
  - apply ledger_eq; simpl; [by rewrite insert_insert_eq | done].
  - rewrite Z.add_0_r. by destruct (account_view l a).
Qed.

Lemma status_accrual_fields (l : Ledger) (a : string) :
  let acc := account_view l a in
  let r := (mockGetStakingStatus a l).1 in
  let l' := (mockGetStakingStatus a l).2 in
  (poolId acc ≠ None → bonded acc ≠ 0 →
     account_view l' a
     = mkAccountState (balance acc) (poolId acc) (bonded acc) (unbonding acc)
         (unbondingEra acc) (claimableRewards acc + bonded acc ÷ 1000))
  ∧ (poolId acc ≠ None → bonded acc = 1000 →
     claimableRewards (account_view l' a) = claimableRewards acc + 1)
  ∧ (poolId acc = None ∨ bonded acc = 0 → account_view l' a = acc)
  ∧ r = Normal (status_of a (account_view l' a))
  ∧ (∀ s, r = Normal s → isMember s = bool_decide (poolId acc ≠ None))
  ∧ (∀ b, b ≠ a → account_view l' b = account_view l b)
  ∧ (∀ q, pool_view l' q = pool_view l q).
Proof.
  cbn zeta. unfold mockGetStakingStatus. run_call.
  destruct (decide (poolId (account_view l a) ≠ None ∧ bonded (account_view l a) ≠ 0))
    as [[Hp Hb]|Hn]; run_call; cbn [fst snd]; views; rewrite ?decide_True by done.
  - repeat split; try done.
    + intros _ H1000. simpl. rewrite H1000. reflexivity.
    + intros [?|?]; congruence.
    + intros s [= <-]. reflexivity.
    + intros b Hne. by solve_views.
  - repeat split; try done.
    + tauto.
    + intros ? H1000. exfalso. apply Hn. split; [done | lia].
    + intros s [= <-]. reflexivity.
    + intros b Hne. by solve_views.
Qed.

(** C6, as stated, fails in its last part: an active member is not always
    changed by a status read.  After joining pool 1 with ["999"] the account
    is a member with a nonzero bonded amount, but [999n / 1000n = 0n], so the
    status read returns the very same ledger. *)
Lemma small_stake_status_read_is_pure :
  let l := run [JoinPool "a" 1 "999" 0] emptyLedger in
  poolId (account_view l "a") = Some 1
  ∧ bonded (account_view l "a") = 999
  ∧ (mockGetStakingStatus "a" l).2 = l
  ∧ ¬ ((mockGetStakingStatus "a" l).2 ≠ l
       ↔ poolId (account_view l "a") ≠ None ∧ bonded (account_view l "a") ≠ 0).
Proof.
  cbn zeta.
  assert (Hpure : (mockGetStakingStatus "a" (run [JoinPool "a" 1 "999" 0] emptyLedger)).2
                  = run [JoinPool "a" 1 "999" 0] emptyLedger).
  { rewrite status_read_ledger. apply putAccount_view_id. reflexivity. }
  split; [reflexivity|]. split; [reflexivity|]. split; [exact Hpure|].
  intros [_ H]. apply H; [|exact Hpure]. split; vm_compute; discriminate.
Qed.

(** C6 (amended): a status read of a member with a nonzero bonded amount adds
    exactly [bonded / 1000] (BigInt division) to [claimableRewards] and
    changes nothing else; on any other account it changes nothing; it returns
    the record after the accrual with [isMember] telling whether [poolId] is
    set.  With [bonded = 1000] a member accrues exactly 1 per read.  So a
    status read changes [claimableRewards], and with it the ledger, exactly
    for the members whose bonded amount is at least 1000 in magnitude: for a
    member with a smaller bonded amount the increment is 0 and the read is
    pure. *)
Theorem status_accrual (l : Ledger) (a : string) :
  let acc := account_view l a in
  let r := (mockGetStakingStatus a l).1 in
  let l' := (mockGetStakingStatus a l).2 in
  (poolId acc ≠ None → bonded acc ≠ 0 →
     account_view l' a
     = mkAccountState (balance acc) (poolId acc) (bonded acc) (unbonding acc)
         (unbondingEra acc) (claimableRewards acc + bonded acc ÷ 1000))
  ∧ (poolId acc ≠ None → bonded acc = 1000 →
     claimableRewards (account_view l' a) = claimableRewards acc + 1)
  ∧ (poolId acc = None ∨ bonded acc = 0 → account_view l' a = acc)
  ∧ r = Normal (status_of a (account_view l' a))
  ∧ (∀ s, r = Normal s → isMember s = bool_decide (poolId acc ≠ None))
  ∧ (∀ b, b ≠ a → account_view l' b = account_view l b)
  ∧ (∀ q, pool_view l' q = pool_view l q)
  ∧ (claimableRewards (account_view l' a) ≠ claimableRewards acc
     ↔ poolId acc ≠ None ∧ 1000 ≤ Z.abs (bonded acc))
  ∧ (same_views l l' ↔ poolId acc = None ∨ Z.abs (bonded acc) < 1000)
  ∧ (is_Some (accountStates l !! a) →
     poolId acc = None ∨ Z.abs (bonded acc) < 1000 → l' = l).
Proof.
  cbn zeta.
  destruct (status_accrual_fields l a) as (H1 & H2 & H3 & H4 & H5 & H6 & H7).
  do 7 (split; [assumption|]).
  pose proof (rewardIncrement_zero (account_view l a)) as Hz.
  assert (Hc : claimableRewards (account_view (mockGetStakingStatus a l).2 a)
               = claimableRewards (account_view l a) + rewardIncrement (account_view l a)).
  { rewrite status_read_ledger. views. by rewrite decide_True by done. }
  split; [|split].
  - rewrite Hc. split.
    + intros Hne. assert (Hnz : rewardIncrement (account_view l a) ≠ 0) by lia.
      destruct (poolId (account_view l a)) eqn:Hp.
      * split; [done|]. destruct (Z_lt_le_dec (Z.abs (bonded (account_view l a))) 1000);
          [|lia]. exfalso. apply Hnz, Hz. by right.
      * exfalso. apply Hnz, Hz. by left.
    + intros [Hp Hb] Heq. assert (Hzero : rewardIncrement (account_view l a) = 0) by lia.
      apply Hz in Hzero as [?|?]; [done | lia].
  - split.
    + intros [Hv _]. apply Hz. rewrite (Hv a) in Hc. lia.
    + intros Hcond. apply Hz in Hcond. rewrite status_read_ledger, Hcond, Z.add_0_r.
      replace (mkAccountState _ _ _ _ _ _) with (account_view l a)
        by by destruct (account_view l a).
      apply same_views_touch_account.
  - intros [x Hx] Hcond. apply Hz in Hcond. rewrite status_read_ledger, Hcond, Z.add_0_r.
    replace (mkAccountState _ _ _ _ _ _) with (account_view l a)
      by by destruct (account_view l a).
    apply putAccount_view_id. by rewrite (account_view_lookup _ _ _ Hx).
Qed.

Lemma status_accrual_witness :
  let l := run [JoinPool "a" 1 "1000" 0] emptyLedger in
  claimableRewards (account_view (mockGetStakingStatus "a" l).2 "a")
  = claimableRewards (account_view l "a") + 1.
Proof.
  cbn zeta.
  apply (proj1 (proj2 (status_accrual (run [JoinPool "a" 1 "1000" 0] emptyLedger) "a"))).
  - vm_compute. congruence.
  - reflexivity.
Defined.

(** ** Pool info *)

(** C7, as stated, fails: [mockGetPoolInfo] fetches the pool through the
    get-or-create accessor [getPoolState], so asking for pool 1 of the empty
    ledger stores a record for pool 1. *)
Lemma pool_info_creates_pool :
  poolStates emptyLedger !! 1 = None
  ∧ poolStates (mockGetPoolInfo 1 emptyLedger).2 !! 1 = Some (defaultPool 1)
  ∧ poolStates (mockGetPoolInfo 1 emptyLedger).2 ≠ poolStates emptyLedger.
Proof.
  split; [reflexivity|]. split; [reflexivity|].
  intros H. apply (f_equal (λ m, m !! 1)) in H. vm_compute in H. discriminate.
Qed.

(** C7 (amended): the pool-info query on a pool that has no record returns
    the default pool view (Open, zeroed aggregates) and stores exactly that
    default record under the queried id; no account record and no other pool
    record changes, and every pool shows the same record as before. *)
Theorem pool_info_untouched_pool (l : Ledger) (p : Z) :
  poolStates l !! p = None →
  (mockGetPoolInfo p l).1
  = Normal (mkPoolInfo p 0 0 Open "0%" (metadata (defaultPool p))
              ("N/A", "N/A", "N/A", "N/A"))
  ∧ poolStates (mockGetPoolInfo p l).2 = <[p := defaultPool p]> (poolStates l)
  ∧ accountStates (mockGetPoolInfo p l).2 = accountStates l
  ∧ same_views l (mockGetPoolInfo p l).2.
Proof.
  intros Hp. unfold mockGetPoolInfo. run_call. cbn [fst snd].
  assert (Hv : pool_view l p = defaultPool p) by (unfold pool_view; by rewrite Hp).
  rewrite Hv. repeat split; try done.
  intros q. by solve_views.
Qed.

Lemma pool_info_untouched_pool_witness :
  poolStates emptyLedger !! 7 = None
  ∧ poolStates (mockGetPoolInfo 7 emptyLedger).2 = <[7 := defaultPool 7]> ∅.
Proof.
  split; [reflexivity|].
  exact (proj1 (proj2 (pool_info_untouched_pool emptyLedger 7 eq_refl))).
Defined.

(** A pool with a record is read without any write. *)
Lemma pool_info_existing_pool l p ps :
  poolStates l !! p = Some ps → mockGetPoolInfo p l = (Normal (info_of ps), l).
Proof.
  intros Hp. unfold mockGetPoolInfo. run_call.
  rewrite (pool_view_lookup _ _ _ Hp). f_equal.
  apply ledger_eq; simpl; [done | by apply insert_id].
Qed.

(** ** Claiming rewards *)

(** C9: for a member whose pool matches the requested one (or with no pool
    requested), claiming with nothing claimable succeeds with the message
    "No rewards to claim" and returns the very same ledger, so that repeating
    it changes nothing; with a positive claimable amount the whole of it
    moves to the free balance and [claimableRewards] becomes 0. *)
Theorem claim_rewards (l : Ledger) (a : string) (current : Z) (requested : option Z) :
  let acc := account_view l a in
  poolId acc = Some current →
  requested = None ∨ requested = Some current →
  (claimableRewards acc = 0 →
     mockClaimRewards a requested l = (Normal (ok MsgNoRewardsToClaim), l)
     ∧ literal_text MsgNoRewardsToClaim = Some "No rewards to claim"
     ∧ mockClaimRewards a requested (mockClaimRewards a requested l).2
       = mockClaimRewards a requested l)
  ∧ (0 < claimableRewards acc →
     (mockClaimRewards a requested l).1 = Normal (ok (MsgClaimed (claimableRewards acc)))
     ∧ account_view (mockClaimRewards a requested l).2 a
       = mkAccountState (balance acc + claimableRewards acc) (poolId acc) (bonded acc)
           (unbonding acc) (unbondingEra acc) 0
     ∧ (∀ b, b ≠ a → account_view (mockClaimRewards a requested l).2 b = account_view l b)
     ∧ (∀ q, pool_view (mockClaimRewards a requested l).2 q = pool_view l q)).
Proof.
  cbn zeta. intros Hp Hreq.
  assert (Hin : accountStates l !! a = Some (account_view l a)).
  { unfold account_view in *. destruct (accountStates l !! a); [done | discriminate]. }
  assert (Hid : putAccount a (account_view l a) l = l) by by apply putAccount_view_id.
  assert (Hok : ¬ (requested ≠ None ∧ requested ≠ Some current)) by (destruct Hreq; tauto).
  unfold mockClaimRewards. run_call. rewrite Hid, Hp. cbn beta iota.
  rewrite (decide_False _ _ Hok).
  split.
  - intros H0. rewrite decide_True by done. run_call.
    split; [done|]. split; [done|]. cbn [snd]. run_call. rewrite Hid, Hp. cbn beta iota.
    rewrite (decide_False _ _ Hok). by rewrite decide_True by done.
  - intros Hpos. rewrite decide_False by lia. run_call. cbn [fst snd].
    split; [done|]. split; [by solve_views|]. split; [|done].
    intros b Hb. by solve_views.
Qed.

Lemma claim_rewards_witness :
  let l := run [JoinPool "a" 1 "1000" 0] emptyLedger in
  mockClaimRewards "a" None l = (Normal (ok MsgNoRewardsToClaim), l).
Proof.
  cbn zeta.
  apply (proj1 (claim_rewards (run [JoinPool "a" 1 "1000" 0] emptyLedger) "a" 1 None
                  eq_refl (or_introl eq_refl))).
  reflexivity.
Defined.

(** ** Counting the members of a pool *)

Section Members.
Implicit Types (l : Ledger) (a : string) (p : Z) (x : AccountState).

Lemma members_empty p : members emptyLedger p = 0%nat.
Proof. unfold members. simpl. by rewrite map_filter_empty, map_size_empty. Qed.

Lemma members_putPool q ps l p : members (putPool q ps l) p = members l p.
Proof. reflexivity. Qed.

(** Storing a record moves its account out of the pool it was in and into
    the pool the new record names. *)
Lemma members_putAccount a x l p :
  Z.of_nat (members (putAccount a x l) p)
  = Z.of_nat (members l p)
    - (if decide (poolId (account_view l a) = Some p) then 1 else 0)
    + (if decide (poolId x = Some p) then 1 else 0).
Proof.
  unfold members, putAccount, account_view. cbn [accountStates].
  set (P := λ kv : string * AccountState, poolId kv.2 = Some p).
  set (m := accountStates l).
  rewrite (map_filter_insert P m a x).
  assert (Hdel : size (filter P (delete a m))
                 = match m !! a with
                   | Some y => if decide (poolId y = Some p)
                               then pred (size (filter P m)) else size (filter P m)
                   | None => size (filter P m)
                   end).
  { rewrite map_filter_delete, map_size_delete, map_lookup_filter.
    destruct (m !! a) as [y|]; simpl; [|done].
    case_guard; simpl; by case_decide. }
  assert (Hpos : ∀ y, m !! a = Some y → poolId y = Some p → (0 < size (filter P m))%nat).
  { intros y Hy HP.
    assert (Hne : size (filter P m) ≠ 0%nat); [|lia].
    apply (map_size_ne_0_lookup_2 _ a). exists y.
    by apply map_lookup_filter_Some. }
  destruct (decide (P (a, x))) as [HPx|HPx]; unfold P in HPx; cbn [snd] in HPx.
  - rewrite (decide_True _ _ HPx).
    rewrite map_size_insert, map_lookup_filter.
    destruct (m !! a) as [y|] eqn:Hy; simpl.
    + case_guard; simpl; unfold P in *; cbn [snd] in *;
        case_decide; try done; try specialize (Hpos y eq_refl ltac:(assumption)); lia.
    + lia.
  - rewrite (decide_False _ _ HPx), Hdel.
    destruct (m !! a) as [y|] eqn:Hy; simpl.
    + case_decide; [specialize (Hpos y eq_refl ltac:(assumption))|]; lia.
    + lia.
Qed.

Lemma members_touch a l p : members (putAccount a (account_view l a) l) p = members l p.
Proof.
  apply Nat2Z.inj. rewrite members_putAccount. case_decide; lia.
Qed.

Lemma members_pos a l p :
  poolId (account_view l a) = Some p → (0 < members l p)%nat.
Proof.
  intros H. pose proof (members_putAccount a defaultAccount l p) as Hc.
  rewrite decide_True in Hc by done. rewrite decide_False in Hc by done. lia.
Qed.
End Members.

Ltac members_norm :=
  repeat first
    [ rewrite members_putPool
    | rewrite putAccount_putAccount
    | rewrite members_touch
    | rewrite members_putAccount ].

Lemma step_member_count_exact op l :
  consistent l → member_count_exact (step op l).2.
Proof.
  intros [Hb Hm] q. pose proof (Hm q) as Hq.
  step_cases op; views; members_norm; views; try exact Hq.
  all: repeat case_decide; subst; simpl; try lia; try congruence.
  all: try (pose proof (Hm p) as Hp');
    try (pose proof (Hb account) as Hba);
    try case_bool_decide; simpl in *; try lia; try congruence; try tauto.
  - naive_solver.
  - match goal with
    | H : poolId (account_view l _) = Some _ |- _ => pose proof (members_pos _ _ _ H)
    end. lia.
Qed.

Lemma reachable_consistent l : reachable l → consistent l.
Proof.
  intros [ops ->].
  apply (run_invariant consistent (λ _, True)).
  - split.
    + intros a. rewrite account_view_empty. simpl. congruence.
    + intros p. by rewrite pool_view_empty, members_empty.
  - intros op l _ Hc. split.
    + apply step_bonded_in_pool, Hc.
    + by apply step_member_count_exact.
  - by apply Forall_forall.
Qed.

(** A pool with a member counts at least one member. *)
Lemma reachable_member_counted l a p :
  reachable l → poolId (account_view l a) = Some p → 1 ≤ memberCount (pool_view l p).
Proof.
  intros Hr Hp. destruct (reachable_consistent l Hr) as [_ Hm].
  rewrite Hm. pose proof (members_pos a l p Hp). lia.
Qed.

(** ** Unbonding *)

(** C4: for a member of pool [p] and an amount [n] not exceeding the bonded
    amount, unbonding succeeds; it takes [n] from [bonded], adds [n] to
    [unbonding], sets the release time to [now + UNBONDING_PERIOD_MS] whatever
    it was before, takes [n] from the pool's total, and, exactly when nothing
    stays bonded, clears [poolId] and lowers the pool's member count by one
    (the code writes [Math.max(0, memberCount - 1)], which is
    [memberCount - 1] in every ledger that calls can produce). *)
Theorem unbond_effect (l : Ledger) (a : string) (p : Z) (amount : string) (n now : Z) :
  let acc := account_view l a in
  let ps := pool_view l p in
  let l' := (mockUnbond a amount now l).2 in
  poolId acc = Some p →
  StringToBigInt amount = Some n →
  n ≤ bonded acc →
  (mockUnbond a amount now l).1 = Normal (ok (MsgUnbondInitiated n))
  ∧ account_view l' a
    = mkAccountState (balance acc)
        (if decide (bonded acc - n = 0) then None else Some p)
        (bonded acc - n) (unbonding acc + n)
        (Some (now + UNBONDING_PERIOD_MS)) (claimableRewards acc)
  ∧ pool_view l' p
    = mkPoolState (pool_poolId ps) (pool_bonded ps - n)
        (if decide (bonded acc - n = 0) then Z.max 0 (memberCount ps - 1)
         else memberCount ps)
        (state ps) (commission ps) (metadata ps)
  ∧ (reachable l → bonded acc - n = 0 →
     memberCount (pool_view l' p) = memberCount ps - 1)
  ∧ (∀ b, b ≠ a → account_view l' b = account_view l b)
  ∧ (∀ q, q ≠ p → pool_view l' q = pool_view l q).
Proof.
  cbn zeta. intros Hp Hn Hle.
  unfold mockUnbond. run_call. rewrite Hn, Hp. cbn beta iota.
  rewrite decide_False by lia. run_call. cbn [fst snd]. views.
  destruct (decide (a = a)); [|done]. destruct (decide (p = p)); [|done].
  assert (Hpool :
    (if bool_decide (bonded (account_view l a) - n = 0)
     then Z.max 0 (memberCount (pool_view l p) - 1) else memberCount (pool_view l p))
    = (if decide (bonded (account_view l a) - n = 0)
       then Z.max 0 (memberCount (pool_view l p) - 1) else memberCount (pool_view l p))).
  { case_bool_decide; case_decide; done. }
  assert (Hacc :
    (if bool_decide (bonded (account_view l a) - n = 0) then None else Some p)
    = (if decide (bonded (account_view l a) - n = 0) then None else Some p)).
  { case_bool_decide; case_decide; done. }
  rewrite Hpool, Hacc.
  split; [done|]. split; [done|]. split; [done|]. split; [|split].
  - intros Hr H0. cbn [memberCount]. rewrite decide_True by done.
    pose proof (reachable_member_counted l a p Hr Hp). lia.
  - intros b Hb. by solve_views.
  - intros q Hq. by solve_views.
Qed.

Lemma unbond_effect_witness :
  let l := run [JoinPool "a" 1 "1000" 0] emptyLedger in
  let l' := (mockUnbond "a" "1000" 7 l).2 in
  (mockUnbond "a" "1000" 7 l).1 = Normal (ok (MsgUnbondInitiated 1000))
  ∧ account_view l' "a"
    = mkAccountState 9999999999000 None 0 1000 (Some (7 + UNBONDING_PERIOD_MS)) 0
  ∧ memberCount (pool_view l' 1) = 0.
Proof.
  cbn zeta.
  set (l := run [JoinPool "a" 1 "1000" 0] emptyLedger).
  assert (Hp : poolId (account_view l "a") = Some 1) by reflexivity.
  assert (Hn : StringToBigInt "1000" = Some 1000) by reflexivity.
  assert (Hle : 1000 ≤ bonded (account_view l "a")) by (vm_compute; congruence).
  destruct (unbond_effect l "a" 1 "1000" 1000 7 Hp Hn Hle) as (Hr & Ha & _ & Hm & _).
  split; [exact Hr|]. split; [exact Ha|].
  rewrite Hm; [reflexivity | by exists [JoinPool "a" 1 "1000" 0] | reflexivity].
Defined.

(** C10: amounts are not checked for their sign.  For a member of pool [p]
    with a non-negative bonded amount, a negative amount [n] (such as
    ["-5"]) passes the guard [amount > bonded]; the call succeeds, raises
    [bonded] by [|n|], lowers [unbonding] by [|n|] and raises the pool's total
    by [|n|]. *)
Theorem negative_unbond_accepted (l : Ledger) (a : string) (p : Z) (amount : string)
    (n now : Z) :
  let acc := account_view l a in
  let l' := (mockUnbond a amount now l).2 in
  poolId acc = Some p →
  StringToBigInt amount = Some n →
  n < 0 →
  0 ≤ bonded acc →
  (mockUnbond a amount now l).1 = Normal (ok (MsgUnbondInitiated n))
  ∧ success (ok (MsgUnbondInitiated n)) = true
  ∧ bonded (account_view l' a) = bonded acc + Z.abs n
  ∧ unbonding (account_view l' a) = unbonding acc - Z.abs n
  ∧ poolId (account_view l' a) = Some p
  ∧ pool_bonded (pool_view l' p) = pool_bonded (pool_view l p) + Z.abs n.
Proof.
  cbn zeta. intros Hp Hn Hneg Hb.
  unfold mockUnbond. run_call. rewrite Hn, Hp. cbn beta iota.
  rewrite decide_False by lia. run_call. cbn [fst snd]. views.
  destruct (decide (a = a)); [|done]. destruct (decide (p = p)); [|done].
  rewrite bool_decide_eq_false_2 by lia. cbn [bonded unbonding poolId pool_bonded].
  repeat split; try done; lia.
Qed.

Lemma negative_unbond_accepted_witness :
  let l := run [JoinPool "a" 1 "5" 0] emptyLedger in
  let l' := (mockUnbond "a" "-5" 0 l).2 in
  (mockUnbond "a" "-5" 0 l).1 = Normal (ok (MsgUnbondInitiated (-5)))
  ∧ bonded (account_view l' "a") = 10
  ∧ unbonding (account_view l' "a") = -5
  ∧ pool_bonded (pool_view l' 1) = 10.
Proof.
  cbn zeta.
  set (l := run [JoinPool "a" 1 "5" 0] emptyLedger).
  assert (Hp : poolId (account_view l "a") = Some 1) by reflexivity.
  assert (Hn : StringToBigInt "-5" = Some (-5)) by reflexivity.
  assert (Hneg : -5 < 0) by lia.
  assert (Hb : 0 ≤ bonded (account_view l "a")) by (vm_compute; congruence).
  destruct (negative_unbond_accepted l "a" 1 "-5" (-5) 0 Hp Hn Hneg Hb)
    as (Hr & _ & H1 & H2 & _ & H3).
  split; [exact Hr|]. split; [exact H1|]. split; [exact H2|]. exact H3.
Defined.

(** ** The order of the checks of a join *)

(** On the unsigned amounts of the specification the two readings agree. *)
Lemma pending_agree u : 0 ≤ u → nonzero_pending u = positive_pending u.
Proof.
  intros Hu. unfold nonzero_pending, positive_pending.
  repeat case_bool_decide; try reflexivity; lia.
Qed.

Lemma join_checks_agree ps acc p n now :
  0 ≤ unbonding acc →
  join_checks nonzero_pending ps acc p n now = join_checks positive_pending ps acc p n now.
Proof. intros Hu. unfold join_checks. by rewrite pending_agree. Qed.

(** C8 at the failing input.  The state manager does not validate amounts, so
    [Unbond] accepts ["-5"]: after joining pool 1 with 5 and unbonding
    ["-5"], the account has [unbonding = -5], which is nonzero, and a release
    time in the future.  The stated order then rejects a further join of
    pool 1 with [FUNDS_UNBONDING]; the code, whose guard is
    [unbondingBigInt > 0n], passes that check and rejects the join with the
    same-pool [ALREADY_IN_POOL]. *)
Lemma negative_unbonding_skips_funds_check :
  let l := run [JoinPool "a" 1 "5" 0; Unbond "a" "-5" 0] emptyLedger in
  unbonding (account_view l "a") = -5
  ∧ unbondingEra (account_view l "a") = Some 2419200000
  ∧ first_failure (join_checks nonzero_pending (pool_view l 1) (account_view l "a") 1 5 1)
    = Some FUNDS_UNBONDING
  ∧ (mockJoinPool "a" 1 "5" 1 l).1 = Normal (fail (MsgAlreadyInThisPool 1) ALREADY_IN_POOL).
Proof. vm_compute. repeat split; reflexivity. Qed.

Lemma in_other_pool_iff acc p :
  in_other_pool acc p ↔ poolId acc ≠ None ∧ poolId acc ≠ Some p.
Proof.
  unfold in_other_pool. destruct (poolId acc) as [q|].
  - split; [intros H; split; congruence | intros [_ H] ->; by apply H].
  - split; [tauto | intros [H _]; by apply H].
Qed.

(** A missing release time reads as 0 in the code; no clock reading is
    before it. *)
Lemma release_in_future_iff acc now :
  0 ≤ now → release_in_future acc now ↔ now < or_zero (unbondingEra acc).
Proof.
  intros Hnow. unfold release_in_future, or_zero.
  destruct (unbondingEra acc); simpl; [tauto | lia].
Qed.

(** The error that the code returns is the first failing check of the list. *)
Lemma join_first_failure (l : Ledger) (a : string) (p : Z) (amount : string) (n now : Z) :
  StringToBigInt amount = Some n →
  0 ≤ now →
  ∃ res, (mockJoinPool a p amount now l).1 = Normal res
    ∧ error res
      = first_failure (join_checks positive_pending (pool_view l p) (account_view l a) p n now)
    ∧ (success res = true ↔ error res = None)
    ∧ (error res ≠ None → same_views l (mockJoinPool a p amount now l).2).
Proof.
  intros Hn Hnow.
  pose proof (in_other_pool_iff (account_view l a) p) as Hother.
  pose proof (release_in_future_iff (account_view l a) now Hnow) as Hrel.
  unfold mockJoinPool. run_call. rewrite Hn. views.
  unfold first_failure, join_checks, positive_pending.
  repeat (match goal with |- context [decide ?P] => destruct (decide P) end; run_call);
    cbn [fst snd]; eexists; (split; [reflexivity|]); cbn [error success fail ok].
  all: split; [|split; [split; congruence | try congruence; auto with ledger]].
  all: repeat case_bool_decide; simpl; try reflexivity; exfalso; tauto.
Qed.

(** The order of the checks as the code has it, on every ledger: a join whose
    amount [BigInt] accepts is rejected by the first failing check of the
    order [POOL_NOT_OPEN], [ALREADY_IN_POOL] (a different pool),
    [FUNDS_UNBONDING] (unbonding strictly positive and release time in the
    future), [INSUFFICIENT_BALANCE] (free balance below amount plus reserve),
    [ALREADY_IN_POOL] (the same pool), and succeeds when none fails; a
    rejected join leaves every account and pool record as it was.  In
    particular a pool that is [Blocked] yields [POOL_NOT_OPEN] whatever the
    account's record, and an account with free balance 500 and nothing
    unbonding that joins an open pool with 1000 is rejected with
    [INSUFFICIENT_BALANCE]. *)
Theorem join_rejection_order (l : Ledger) (a : string) (p : Z) (amount : string)
    (n now : Z) :
  let acc := account_view l a in
  let ps := pool_view l p in
  let r := (mockJoinPool a p amount now l).1 in
  let l' := (mockJoinPool a p amount now l).2 in
  StringToBigInt amount = Some n →
  0 ≤ now →
  (∃ res, r = Normal res
     ∧ error res = first_failure (join_checks positive_pending ps acc p n now)
     ∧ (success res = true ↔ error res = None)
     ∧ (error res ≠ None → same_views l l'))
  ∧ (state ps = Blocked →
     ∃ res, r = Normal res ∧ success res = false ∧ error res = Some POOL_NOT_OPEN)
  ∧ (state ps = Open → poolId acc = None → unbonding acc = 0 →
     balance acc = 500 → n = 1000 →
     (∃ res, r = Normal res ∧ success res = false
        ∧ error res = Some INSUFFICIENT_BALANCE)
     ∧ same_views l l').
Proof.
  cbn zeta. intros Hn Hnow.
  destruct (join_first_failure l a p amount n now Hn Hnow) as (res & Hr & He & Hs & Hv).
  split; [by exists res|]. split.
  - intros Hblocked. exists res. split; [done|].
    assert (Herr : error res = Some POOL_NOT_OPEN).
    { rewrite He. unfold first_failure, join_checks. rewrite Hblocked.
      by rewrite bool_decide_eq_true_2. }
    split; [|done]. destruct (success res); [|done].
    destruct Hs as [Hs _]. rewrite Hs in Herr; done.
  - intros Hopen Hp Hu Hbal ->.
    assert (Herr : error res = Some INSUFFICIENT_BALANCE).
    { rewrite He. unfold first_failure, join_checks, positive_pending.
      rewrite (bool_decide_eq_false_2 (state _ ≠ Open)) by (rewrite Hopen; intros H; by apply H).
      rewrite (bool_decide_eq_false_2 (in_other_pool _ _))
        by (rewrite in_other_pool_iff, Hp; intros [H _]; by apply H).
      rewrite (bool_decide_eq_false_2 (0 < unbonding _)) by lia.
      rewrite (bool_decide_eq_true_2 (balance _ < _)) by (rewrite Hbal; unfold minReserve; lia).
      reflexivity. }
    split.
    + exists res. split; [done|]. split; [|done].
      destruct (success res); [|done]. destruct Hs as [Hs _]. rewrite Hs in Herr; done.
    + apply Hv. by rewrite Herr.
Qed.

(** On an unbonding amount that is not negative the third check is the one
    of the specification, "unbonding nonzero with release time in the
    future". *)
Lemma join_order_on_unsigned_unbonding (l : Ledger) (a : string) (p : Z) (amount : string)
    (n now : Z) :
  StringToBigInt amount = Some n →
  0 ≤ now →
  0 ≤ unbonding (account_view l a) →
  ∃ res, (mockJoinPool a p amount now l).1 = Normal res
    ∧ error res
      = first_failure (join_checks nonzero_pending (pool_view l p) (account_view l a) p n now)
    ∧ (success res = true ↔ error res = None)
    ∧ (error res ≠ None → same_views l (mockJoinPool a p amount now l).2).
Proof.
  intros Hn Hnow Hu. rewrite (join_checks_agree _ _ _ _ _ Hu).
  by apply join_first_failure.
Qed.

Lemma join_rejection_order_witness :
  let l := putAccount "a" (mkAccountState 500 None 0 0 None 0) emptyLedger in
  (∃ res, (mockJoinPool "a" 1 "1000" 0 l).1 = Normal res ∧ success res = false
     ∧ error res = Some INSUFFICIENT_BALANCE)
  ∧ same_views l (mockJoinPool "a" 1 "1000" 0 l).2.
Proof.
  cbn zeta.
  set (l := putAccount "a" (mkAccountState 500 None 0 0 None 0) emptyLedger).
  assert (Hn : StringToBigInt "1000" = Some 1000) by reflexivity.
  assert (Hnow : 0 ≤ 0) by lia.
  apply (proj2 (proj2 (join_rejection_order l "a" 1 "1000" 1000 0 Hn Hnow)));
    reflexivity.
Defined.

(** * Further properties of the ledger *)

(** ** Joining and bonding *)

(** X1: a join that passes the five checks (open pool, no membership, no
    pending unbonding funds, free balance covering amount and reserve) moves
    the amount from the free balance to [bonded], names the pool in the
    record, adds the amount to the pool's total and, when nothing was bonded
    before, one member to its count; nothing else changes. *)
Theorem join_effect (l : Ledger) (a : string) (p : Z) (amount : string) (n now : Z) :
  let acc := account_view l a in
  let ps := pool_view l p in
  let l' := (mockJoinPool a p amount now l).2 in
  StringToBigInt amount = Some n →
  state ps = Open →
  poolId acc = None →
  ¬ (0 < unbonding acc ∧ now < or_zero (unbondingEra acc)) →
  n + minReserve ≤ balance acc →
  (mockJoinPool a p amount now l).1 = Normal (ok (MsgJoined p n))
  ∧ account_view l' a
    = mkAccountState (balance acc - n) (Some p) (bonded acc + n) (unbonding acc)
        (unbondingEra acc) (claimableRewards acc)
  ∧ pool_view l' p
    = mkPoolState (pool_poolId ps) (pool_bonded ps + n)
        (if decide (bonded acc = 0) then memberCount ps + 1 else memberCount ps)
        (state ps) (commission ps) (metadata ps)
  ∧ (∀ b, b ≠ a → account_view l' b = account_view l b)
  ∧ (∀ q, q ≠ p → pool_view l' q = pool_view l q).
Proof.
  cbn zeta. intros Hn Hopen Hp Hu Hbal.
  unfold mockJoinPool. run_call. rewrite Hn. views.
  rewrite decide_False by (rewrite Hopen; intros H; by apply H).
  rewrite decide_False by (rewrite Hp; intros [H _]; by apply H).
  rewrite (decide_False _ _ Hu).
  rewrite decide_False by lia.
  rewrite decide_False by (rewrite Hp; discriminate).
  run_call. cbn [fst snd].
  split; [done|]. split; [by solve_views|]. split; [by solve_views|].
  split; intros; by solve_views.
Qed.

Lemma join_effect_witness :
  let l' := (mockJoinPool "a" 3 "1000" 0 emptyLedger).2 in
  account_view l' "a" = mkAccountState (DEFAULT_BALANCE - 1000) (Some 3) 1000 0 None 0
  ∧ memberCount (pool_view l' 3) = 1.
Proof.
  cbn zeta.
  assert (Hu : ¬ (0 < unbonding (account_view emptyLedger "a")
                  ∧ 0 < or_zero (unbondingEra (account_view emptyLedger "a")))).
  { intros [H _]. vm_compute in H. discriminate. }
  assert (Hbal : 1000 + minReserve ≤ balance (account_view emptyLedger "a")).
  { vm_compute. discriminate. }
  destruct (join_effect emptyLedger "a" 3 "1000" 1000 0 eq_refl eq_refl eq_refl Hu Hbal)
    as (_ & Ha & Hpool & _).
  split; [exact Ha|]. rewrite Hpool. reflexivity.
Defined.



(** ** Rejections *)



(** X4: claiming is rejected with [NOT_IN_POOL] for a non-member and with
    [WRONG_POOL] when a pool is requested that is not the member's pool;
    neither rejection changes a record, so rewards stay claimable. *)
Theorem claim_rejections (l : Ledger) (a : string) (requested : option Z) :
  let acc := account_view l a in
  let r := (mockClaimRewards a requested l).1 in
  let l' := (mockClaimRewards a requested l).2 in
  (poolId acc = None → r = Normal (fail MsgNotInPool NOT_IN_POOL) ∧ same_views l l')
  ∧ (∀ current q, poolId acc = Some current → requested = Some q → q ≠ current →
     r = Normal (fail (MsgWrongPool requested current) WRONG_POOL) ∧ same_views l l').
Proof.
  cbn zeta. unfold mockClaimRewards. run_call. split.
  - intros Hp. rewrite Hp. run_call. cbn [fst snd]. split; [done | auto with ledger].
  - intros current q Hp -> Hq. rewrite Hp. cbn beta iota.
    rewrite decide_True by (split; congruence).
    run_call. cbn [fst snd]. split; [done | auto with ledger].
Qed.

Lemma claim_rejections_witness :
  let l := run [JoinPool "a" 1 "1000" 0; GetStatus "a"] emptyLedger in
  (mockClaimRewards "a" (Some 2) l).1 = Normal (fail (MsgWrongPool (Some 2) 1) WRONG_POOL)
  ∧ claimableRewards (account_view (mockClaimRewards "a" (Some 2) l).2 "a") = 1.
Proof.
  cbn zeta. set (l := run [JoinPool "a" 1 "1000" 0; GetStatus "a"] emptyLedger).
  assert (Hq : (2 : Z) ≠ 1) by discriminate.
  destruct (proj2 (claim_rejections l "a" (Some 2)) 1 2 eq_refl eq_refl Hq) as [Hr [Hv _]].
  split; [exact Hr|]. by rewrite Hv.
Defined.

(** X5: whatever the call and the ledger, a returned result is either a
    success without error code or a failure with one, and a failure leaves
    the record of every account and of every pool as it was: no rejected
    call has a partial effect. *)
Theorem rejected_call_changes_nothing (op : Op) (l : Ledger) (r : Result) :
  (step op l).1 = Returned r →
  (success r = true ∧ error r = None)
  ∨ (success r = false ∧ error r ≠ None ∧ same_views l (step op l).2).
Proof.
  step_cases op; intros [= <-]; cbn [success error ok fail]; views;
    first [ by left
          | right; split; [done|]; split; [done|]; auto with ledger ].
Qed.

Lemma rejected_call_changes_nothing_witness :
  same_views emptyLedger (step (Unbond "a" "5" 0) emptyLedger).2.
Proof.
  destruct (rejected_call_changes_nothing (Unbond "a" "5" 0) emptyLedger
              (fail MsgNotInPool NOT_IN_POOL) eq_refl) as [[H _]|(_ & _ & H)].
  - discriminate H.
  - exact H.
Defined.

(** X6: a call writes to no account but its own and to at most one pool. *)
Theorem call_frame (op : Op) (l : Ledger) :
  (∀ b, op_account op ≠ Some b → account_view (step op l).2 b = account_view l b)
  ∧ (∃ p, ∀ q, q ≠ p → pool_view (step op l).2 q = pool_view l q).
Proof.
  split; [intros b; apply step_other_account|].
  step_cases op; views;
    first [ by exists 0
          | match goal with
            | |- context [putPool ?p _ _] => exists p
            | |- context [decide (?p = _)] => exists p
            end; intros q Hq; by solve_views ].
Qed.

Lemma call_frame_witness :
  let l := run [JoinPool "a" 1 "1000" 0; JoinPool "b" 2 "1000" 0] emptyLedger in
  account_view (step (Unbond "a" "1000" 9) l).2 "b" = account_view l "b".
Proof.
  cbn zeta.
  apply (proj1 (call_frame (Unbond "a" "1000" 9) _) "b"). discriminate.
Defined.

(** X7: a join or a bond-extra that succeeds leaves at least the fee reserve
    in the free balance, whatever the amount. *)
Theorem reserve_kept (l : Ledger) (op : Op) (a : string) (r : Result) :
  (∃ p amount now, op = JoinPool a p amount now) ∨ (∃ amount, op = BondExtra a amount) →
  (step op l).1 = Returned r →
  success r = true →
  minReserve ≤ balance (account_view (step op l).2 a).
Proof.
  intros [(p & amount & now & ->)|(amount & ->)].
  all: unfold step, mockJoinPool, mockBondExtra; branches; unfold outcome_of;
    cbn [fst snd]; intros [= <-]; cbn [success ok fail]; try discriminate;
    intros _; views; rewrite decide_True by done; cbn [balance]; lia.
Qed.

Lemma reserve_kept_witness :
  minReserve
  ≤ balance (account_view (step (JoinPool "a" 1 "9990000000000" 0) emptyLedger).2 "a").
Proof.
  apply (reserve_kept emptyLedger (JoinPool "a" 1 "9990000000000" 0) "a"
           (ok (MsgJoined 1 9990000000000))).
  - left. by exists 1, "9990000000000", 0.
  - reflexivity.
  - reflexivity.
Defined.

(** ** The accessors *)

(** X8: [getAccountState] hands out the stored record, or creates, stores and
    hands out the default record (free balance [DEFAULT_BALANCE], nothing
    bonded, no pool) on first reference; afterwards the account is in the map
    with exactly the record handed out, no other account and no pool is
    touched, and asking again returns the same record without any write. *)
Theorem getAccountState_get_or_create (l : Ledger) (a : string) :
  let r := getAccountState a l in
  r.1 = Normal (account_view l a)
  ∧ (accountStates l !! a = None → r.1 = Normal defaultAccount)
  ∧ (is_Some (accountStates l !! a) → r.2 = l)
  ∧ accountStates r.2 !! a = Some (account_view l a)
  ∧ (∀ b, b ≠ a → accountStates r.2 !! b = accountStates l !! b)
  ∧ poolStates r.2 = poolStates l
  ∧ getAccountState a r.2 = r.
Proof.
  cbn zeta. unfold getAccountState, account_view.
  destruct (accountStates l !! a) as [x|] eqn:E; cbn [fst snd default from_option id].
  - rewrite E. repeat split; try done; intros [? ?]; congruence.
  - cbn [accountStates poolStates]. rewrite lookup_insert_eq.
    repeat split; try done;
      first [ intros [? ?]; congruence | intros b Hb; by rewrite lookup_insert_ne ].
Qed.

Lemma getAccountState_get_or_create_witness :
  (getAccountState "a" emptyLedger).1 = Normal defaultAccount
  ∧ (getAccountState "a" (getAccountState "a" emptyLedger).2)
    = getAccountState "a" emptyLedger.
Proof.
  destruct (getAccountState_get_or_create emptyLedger "a") as (_ & H0 & _ & _ & _ & _ & Hi).
  split; [exact (H0 eq_refl) | exact Hi].
Defined.

(** X9: for a pool id that is a safe integer, [getPoolState] hands out the
    stored pool record, or creates, stores and hands out an open pool with
    zero total, no members, commission ["0%"] and the metadata
    ["Pool <id> (Mock)"] on first reference; afterwards the pool is in the map
    with exactly the record handed out, no other pool and no account is
    touched, and asking again returns the same record without any write. *)
Theorem getPoolState_get_or_create (l : Ledger) (p : Z) :
  let r := getPoolState p l in
  safe_integer p →
  r.1 = Normal (pool_view l p)
  ∧ (poolStates l !! p = None →
     r.1 = Normal (mkPoolState p 0 0 Open "0%"
                     (Some ("Pool " +:+ string_of_Z p +:+ " (Mock)"))))
  ∧ (is_Some (poolStates l !! p) → r.2 = l)
  ∧ poolStates r.2 !! p = Some (pool_view l p)
  ∧ (∀ q, q ≠ p → poolStates r.2 !! q = poolStates l !! q)
  ∧ accountStates r.2 = accountStates l
  ∧ getPoolState p r.2 = r.
Proof.
  cbn zeta. intros _. unfold getPoolState, pool_view.
  destruct (poolStates l !! p) as [x|] eqn:E; cbn [fst snd default from_option id].
  - rewrite E. repeat split; try done; intros [? ?]; congruence.
  - cbn [accountStates poolStates]. rewrite lookup_insert_eq.
    repeat split; try done;
      first [ intros [? ?]; congruence | intros q Hq; by rewrite lookup_insert_ne ].
Qed.

Lemma getPoolState_get_or_create_witness :
  safe_integer 4
  ∧ (getPoolState 4 emptyLedger).1
    = Normal (mkPoolState 4 0 0 Open "0%" (Some "Pool 4 (Mock)"))
  ∧ getPoolState 4 (getPoolState 4 emptyLedger).2 = getPoolState 4 emptyLedger.
Proof.
  assert (Hs : safe_integer 4) by (unfold safe_integer, MAX_SAFE_INTEGER; lia).
  destruct (getPoolState_get_or_create emptyLedger 4 Hs) as (_ & H0 & _ & _ & _ & _ & Hi).
  split; [exact Hs|]. split; [exact (H0 eq_refl) | exact Hi].
Defined.

(** ** What every sequence of calls maintains *)

Lemma bonded_in_empty p : bonded_in emptyLedger p = 0.
Proof. unfold bonded_in. simpl. by rewrite map_fold_empty. Qed.

Lemma bonded_in_putPool q ps l p : bonded_in (putPool q ps l) p = bonded_in l p.
Proof. reflexivity. Qed.

(** Storing a record replaces what its account added to the sum. *)
Lemma bonded_in_putAccount a x l p :
  bonded_in (putAccount a x l) p
  = bonded_in l p - contribution p (account_view l a) + contribution p x.
Proof.
  unfold bonded_in, putAccount, account_view. cbn [accountStates].
  set (f := λ (_ : string) (acc : AccountState) (s : Z), contribution p acc + s).
  set (m := accountStates l).
  assert (Hcomm : ∀ (j1 j2 : string) z1 z2 y, f j1 z1 (f j2 z2 y) = f j2 z2 (f j1 z1 y)).
  { intros. unfold f. lia. }
  destruct (m !! a) as [y|] eqn:Hy; cbn [default from_option id].
  - rewrite <- (insert_delete_eq m a x).
    rewrite (map_fold_insert_L f 0 a x (delete a m)), (map_fold_delete_L f 0 a y m);
      [unfold f; lia | by intros | done | by intros | apply lookup_delete_eq].
  - rewrite (map_fold_insert_L f 0 a x m); [|by intros | done].
    unfold f, contribution. cbn [poolId defaultAccount].
    repeat case_decide; try congruence; lia.
Qed.

Lemma bonded_in_touch a l p : bonded_in (putAccount a (account_view l a) l) p = bonded_in l p.
Proof. rewrite bonded_in_putAccount. lia. Qed.

Ltac bonded_norm :=
  repeat first
    [ rewrite bonded_in_putPool
    | rewrite putAccount_putAccount
    | rewrite bonded_in_touch
    | rewrite bonded_in_putAccount ].

Lemma step_pool_total_exact op l :
  bonded_in_pool l → pool_total_exact l → pool_total_exact (step op l).2.
Proof.
  intros Hb Hm q. pose proof (Hm q) as Hq.
  step_cases op; views; bonded_norm; views; try exact Hq.
  all: unfold contribution; repeat case_decide; subst; simpl; try lia; try congruence.
  all: try (pose proof (Hm p) as Hp');
    try (pose proof (Hb account) as Hba);
    try case_bool_decide; simpl in *; try lia; try congruence; try tauto.
Qed.

(** X10: after every sequence of calls from the empty ledger, the member
    count of each pool is the number of accounts whose record names that
    pool. *)
Theorem member_count_is_number_of_members (ops : list Op) (p : Z) :
  memberCount (pool_view (run ops emptyLedger) p)
  = Z.of_nat (members (run ops emptyLedger) p).
Proof.
  assert (Hr : reachable (run ops emptyLedger)) by by exists ops.
  apply (reachable_consistent _ Hr).
Qed.

Lemma run_pool_total_exact ops :
  bonded_in_pool (run ops emptyLedger) ∧ pool_total_exact (run ops emptyLedger).
Proof.
  apply (run_invariant (λ l, bonded_in_pool l ∧ pool_total_exact l) (λ _, True)).
  - split.
    + intros a. rewrite account_view_empty. simpl. congruence.
    + intros p. by rewrite pool_view_empty, bonded_in_empty.
  - intros op l _ [Hb Ht]. split.
    + by apply step_bonded_in_pool.
    + by apply step_pool_total_exact.
  - by apply Forall_forall.
Qed.

(** X11: after every sequence of calls from the empty ledger, the total of
    each pool is the sum of the bonded amounts of the accounts whose record
    names that pool. *)
Theorem pool_total_is_sum_of_members (ops : list Op) (p : Z) :
  pool_bonded (pool_view (run ops emptyLedger) p) = bonded_in (run ops emptyLedger) p.
Proof. apply run_pool_total_exact. Qed.

Lemma step_pool_static op l :
  (∀ p, pool_static p (pool_view l p)) → ∀ p, pool_static p (pool_view (step op l).2 p).
Proof.
  intros H q. pose proof (H q) as Hq. unfold pool_static in *.
  step_cases op; views; try exact Hq.
  all: repeat case_decide; subst; simpl; try exact Hq.
Qed.

Lemma run_pool_static ops p : pool_static p (pool_view (run ops emptyLedger) p).
Proof.
  revert p.
  apply (run_invariant (λ l, ∀ p, pool_static p (pool_view l p)) (λ _, True)).
  - intros p. rewrite pool_view_empty. by repeat split.
  - intros op l _. apply step_pool_static.
  - by apply Forall_forall.
Qed.

(** X12: no call changes the lifecycle state, the id, the commission or the
    metadata of a pool; after every sequence of calls from the empty ledger
    every pool is [Open] with its own id and commission ["0%"], and with the
    metadata ["Pool <id> (Mock)"] when its id is a safe integer; so no call
    is ever rejected with [POOL_NOT_OPEN]. *)
Theorem pools_stay_open (ops : list Op) (p : Z) (op : Op) (r : Result) :
  let l := run ops emptyLedger in
  pool_poolId (pool_view l p) = p
  ∧ state (pool_view l p) = Open
  ∧ commission (pool_view l p) = "0%"
  ∧ (safe_integer p →
     metadata (pool_view l p) = Some ("Pool " +:+ string_of_Z p +:+ " (Mock)"))
  ∧ ((step op l).1 = Returned r → error r ≠ Some POOL_NOT_OPEN).
Proof.
  cbn zeta. destruct (run_pool_static ops p) as (Hid & Hst & Hc & Hm).
  split; [done|]. split; [done|]. split; [done|]. split; [done|].
  assert (Hopen : ∀ q, state (pool_view (run ops emptyLedger) q) = Open).
  { intros q. apply (run_pool_static ops q). }
  generalize dependent (run ops emptyLedger). intros l _ _ _ _ Hopen.
  step_cases op; intros [= <-]; cbn [error ok fail]; try discriminate.
  exfalso. revert n. views. rewrite Hopen. intros H. by apply H.
Qed.

Lemma pools_stay_open_witness :
  let l := run [JoinPool "a" 7 "1000" 0; Unbond "a" "1000" 1] emptyLedger in
  safe_integer 7
  ∧ metadata (pool_view l 7) = Some "Pool 7 (Mock)"
  ∧ (step (JoinPool "b" 7 "1000" 2) l).1 = Returned (ok (MsgJoined 7 1000))
  ∧ error (ok (MsgJoined 7 1000)) ≠ Some POOL_NOT_OPEN.
Proof.
  cbn zeta.
  assert (Hs : safe_integer 7) by (unfold safe_integer, MAX_SAFE_INTEGER; lia).
  assert (Hstep : (step (JoinPool "b" 7 "1000" 2)
                     (run [JoinPool "a" 7 "1000" 0; Unbond "a" "1000" 1] emptyLedger)).1
                  = Returned (ok (MsgJoined 7 1000))) by reflexivity.
  destruct (pools_stay_open [JoinPool "a" 7 "1000" 0; Unbond "a" "1000" 1] 7
              (JoinPool "b" 7 "1000" 2) (ok (MsgJoined 7 1000)))
    as (_ & _ & _ & Hm & He).
  split; [exact Hs|]. split; [exact (Hm Hs)|]. split; [exact Hstep | exact (He Hstep)].
Defined.

(** X13: records are never deleted: an account or a pool that has a record
    keeps one through every call. *)
Theorem records_never_deleted (op : Op) (l : Ledger) :
  dom (accountStates l) ⊆ dom (accountStates (step op l).2)
  ∧ dom (poolStates l) ⊆ dom (poolStates (step op l).2).
Proof.
  step_cases op; unfold putAccount, putPool; cbn [accountStates poolStates];
    rewrite ?dom_insert_L; split; repeat apply union_subseteq_r'; reflexivity.
Qed.

Lemma step_unsigned_fields op l :
  amount_nonnegative op →
  (∀ a, unsigned_fields (account_view l a)) →
  ∀ a, unsigned_fields (account_view (step op l).2 a).
Proof.
  intros Hop H b. pose proof (H b) as Hb. revert Hop. unfold unsigned_fields in *.
  step_cases op; views; repeat case_decide; subst; simpl; try (intros; exact Hb).
  all: try rewrite Heqo; unfold minReserve in *; intros Hn;
    try (pose proof (Z.quot_pos (bonded (account_view l b)) 1000)); lia.
Qed.

(** The defect behind the failing input of the order of checks is the only
    way to it: on every ledger reached from the empty one by calls without a
    negative amount, a join is rejected by the first failing check in the
    order and the wording of the specification. *)
Lemma join_order_without_negative_amounts (ops : list Op) (a : string) (p : Z)
    (amount : string) (n now : Z) :
  Forall amount_nonnegative ops →
  StringToBigInt amount = Some n →
  0 ≤ now →
  let l := run ops emptyLedger in
  ∃ res, (mockJoinPool a p amount now l).1 = Normal res
    ∧ error res
      = first_failure (join_checks nonzero_pending (pool_view l p) (account_view l a) p n now)
    ∧ (success res = true ↔ error res = None)
    ∧ (error res ≠ None → same_views l (mockJoinPool a p amount now l).2).
Proof.
  intros Hops Hn Hnow. cbn zeta.
  assert (Hu : ∀ b, unsigned_fields (account_view (run ops emptyLedger) b)).
  { revert Hops.
    apply (run_invariant (λ l, ∀ b, unsigned_fields (account_view l b)) amount_nonnegative).
    - intros b. rewrite account_view_empty. unfold unsigned_fields. simpl.
      unfold DEFAULT_BALANCE. lia.
    - apply step_unsigned_fields. }
  rewrite (join_checks_agree _ _ _ _ _ (proj1 (proj2 (proj2 (Hu a))))).
  by apply join_first_failure.
Qed.

(** X14: when no call of a sequence from the empty ledger carries a negative
    amount, the four balances of every account stay unsigned, and so do the
    total and the member count of every pool. *)
Theorem balances_stay_unsigned (ops : list Op) (a : string) (p : Z) :
  Forall amount_nonnegative ops →
  let l := run ops emptyLedger in
  unsigned_fields (account_view l a)
  ∧ 0 ≤ pool_bonded (pool_view l p)
  ∧ 0 ≤ memberCount (pool_view l p).
Proof.
  intros Hops. cbn zeta.
  assert (Hu : ∀ b, unsigned_fields (account_view (run ops emptyLedger) b)).
  { revert Hops.
    apply (run_invariant (λ l, ∀ b, unsigned_fields (account_view l b)) amount_nonnegative).
    - intros b. rewrite account_view_empty. unfold unsigned_fields. simpl.
      unfold DEFAULT_BALANCE. lia.
    - apply step_unsigned_fields. }
  split; [apply Hu|]. split.
  - rewrite (proj2 (run_pool_total_exact ops) p). unfold bonded_in.
    generalize dependent (run ops emptyLedger). intros l Hu.
    assert (Hall : ∀ b x, accountStates l !! b = Some x → 0 ≤ bonded x).
    { intros b x Hx. specialize (Hu b). rewrite (account_view_lookup _ _ _ Hx) in Hu.
      apply Hu. }
    revert Hall. generalize (accountStates l). intros m.
    apply (map_fold_weak_ind
             (λ r m, (∀ b x, m !! b = Some x → 0 ≤ bonded x) → 0 ≤ r)); [done|].
    intros b x m' r Hnone IH Hall.
    assert (0 ≤ r).
    { apply IH. intros c y Hy. apply (Hall c). rewrite lookup_insert_ne; [done|].
      intros ->. congruence. }
    assert (0 ≤ bonded x) by (apply (Hall b); apply lookup_insert_eq).
    unfold contribution. case_decide; lia.
  - assert (Hr : reachable (run ops emptyLedger)) by by exists ops.
    rewrite (proj2 (reachable_consistent _ Hr) p). lia.
Qed.

Lemma balances_stay_unsigned_witness :
  unsigned_fields
    (account_view (run [JoinPool "a" 1 "1000" 0; Unbond "a" "400" 1; GetStatus "a"]
                     emptyLedger) "a").
Proof.
  apply (balances_stay_unsigned
           [JoinPool "a" 1 "1000" 0; Unbond "a" "400" 1; GetStatus "a"] "a" 1).
  repeat constructor; simpl; lia.
Defined.

(** ** How calls compose *)

(** The ledger that each successful call returns. *)
Lemma join_run l a p amount n now :
  StringToBigInt amount = Some n →
  state (pool_view l p) = Open →
  poolId (account_view l a) = None →
  ¬ (0 < unbonding (account_view l a) ∧ now < or_zero (unbondingEra (account_view l a))) →
  n + minReserve ≤ balance (account_view l a) →
  mockJoinPool a p amount now l
  = (Normal (ok (MsgJoined p n)),
     putPool p
       (mkPoolState (pool_poolId (pool_view l p)) (pool_bonded (pool_view l p) + n)
          (if decide (bonded (account_view l a) = 0) then memberCount (pool_view l p) + 1
           else memberCount (pool_view l p))
          (state (pool_view l p)) (commission (pool_view l p)) (metadata (pool_view l p)))
       (putAccount a
          (mkAccountState (balance (account_view l a) - n) (Some p)
             (bonded (account_view l a) + n) (unbonding (account_view l a))
             (unbondingEra (account_view l a)) (claimableRewards (account_view l a)))
          l)).
Proof.
  intros Hn Hopen Hp Hu Hbal.
  unfold mockJoinPool. run_call. rewrite Hn. views.
  rewrite decide_False by (rewrite Hopen; intros H; by apply H).
  rewrite decide_False by (rewrite Hp; intros [H _]; by apply H).
  rewrite (decide_False _ _ Hu).
  rewrite decide_False by lia.
  rewrite decide_False by (rewrite Hp; discriminate).
  run_call. f_equal. apply ledger_eq; simpl; by rewrite insert_insert_eq.
Qed.

Lemma unbond_run l a p amount n now :
  poolId (account_view l a) = Some p →
  StringToBigInt amount = Some n →
  n ≤ bonded (account_view l a) →
  mockUnbond a amount now l
  = (Normal (ok (MsgUnbondInitiated n)),
     putPool p
       (mkPoolState (pool_poolId (pool_view l p)) (pool_bonded (pool_view l p) - n)
          (if bool_decide (bonded (account_view l a) - n = 0)
           then Z.max 0 (memberCount (pool_view l p) - 1)
           else memberCount (pool_view l p))
          (state (pool_view l p)) (commission (pool_view l p)) (metadata (pool_view l p)))
       (putAccount a
          (mkAccountState (balance (account_view l a))
             (if bool_decide (bonded (account_view l a) - n = 0) then None else Some p)
             (bonded (account_view l a) - n) (unbonding (account_view l a) + n)
             (Some (now + UNBONDING_PERIOD_MS)) (claimableRewards (account_view l a)))
          l)).
Proof.
  intros Hp Hn Hle.
  unfold mockUnbond. run_call. rewrite Hn, Hp. cbn beta iota.
  rewrite decide_False by lia. run_call. views.
  f_equal. apply ledger_eq; simpl; by rewrite insert_insert_eq.
Qed.

Lemma withdraw_run l a now :
  unbonding (account_view l a) ≠ 0 →
  or_zero (unbondingEra (account_view l a)) ≤ now →
  mockWithdrawUnbonded a now l
  = (Normal (ok (MsgWithdrew (unbonding (account_view l a)))),
     putAccount a
       (mkAccountState (balance (account_view l a) + unbonding (account_view l a))
          (poolId (account_view l a)) (bonded (account_view l a)) 0 None
          (claimableRewards (account_view l a)))
       l).
Proof.
  intros Hu Ht. unfold mockWithdrawUnbonded. run_call.
  rewrite decide_False by done. rewrite decide_False by lia. run_call.
  f_equal. apply ledger_eq; simpl; [by rewrite insert_insert_eq | done].
Qed.

Lemma status_run l a :
  mockGetStakingStatus a l
  = (Normal (status_of a
       (mkAccountState (balance (account_view l a)) (poolId (account_view l a))
          (bonded (account_view l a)) (unbonding (account_view l a))
          (unbondingEra (account_view l a))
          (claimableRewards (account_view l a) + rewardIncrement (account_view l a)))),
     putAccount a
       (mkAccountState (balance (account_view l a)) (poolId (account_view l a))
          (bonded (account_view l a)) (unbonding (account_view l a))
          (unbondingEra (account_view l a))
          (claimableRewards (account_view l a) + rewardIncrement (account_view l a)))
       l).
Proof.
  unfold mockGetStakingStatus, rewardIncrement. run_call.
  case_decide; run_call.
  - f_equal. apply ledger_eq; simpl; [by rewrite insert_insert_eq | done].
  - rewrite Z.add_0_r. by destruct (account_view l a).
Qed.

(** X15: joining a pool, unbonding the same nonzero amount and withdrawing
    once the period has passed is a round trip.  For an account of a
    reachable ledger that is in no pool, has nothing unbonding and no release
    time set, and whose free balance covers the amount and the fee reserve,
    the three calls succeed and every account and every pool ends with the
    record it started with. *)
Theorem join_unbond_withdraw_round_trip (ops : list Op) (a : string) (p : Z)
    (amount : string) (n t1 t2 t3 : Z) :
  let l := run ops emptyLedger in
  let l1 := (step (JoinPool a p amount t1) l).2 in
  let l2 := (step (Unbond a amount t2) l1).2 in
  let l3 := (step (WithdrawUnbonded a t3) l2).2 in
  poolId (account_view l a) = None →
  unbonding (account_view l a) = 0 →
  unbondingEra (account_view l a) = None →
  StringToBigInt amount = Some n →
  n ≠ 0 →
  n + minReserve ≤ balance (account_view l a) →
  t2 + UNBONDING_PERIOD_MS ≤ t3 →
  (step (JoinPool a p amount t1) l).1 = Returned (ok (MsgJoined p n))
  ∧ (step (Unbond a amount t2) l1).1 = Returned (ok (MsgUnbondInitiated n))
  ∧ (step (WithdrawUnbonded a t3) l2).1 = Returned (ok (MsgWithdrew n))
  ∧ same_views l l3.
Proof.
  cbn zeta. intros Hp Hu He Hn Hn0 Hbal Ht.
  assert (Hr : reachable (run ops emptyLedger)) by by exists ops.
  destruct (reachable_consistent _ Hr) as [Hb Hm].
  destruct (run_pool_static ops p) as (_ & Hopen & _).
  assert (Hmc : 0 ≤ memberCount (pool_view (run ops emptyLedger) p)) by (rewrite Hm; lia).
  assert (Hb0 : bonded (account_view (run ops emptyLedger) a) = 0).
  { destruct (decide (bonded (account_view (run ops emptyLedger) a) = 0)) as [|Hne];
      [done|]. by destruct (Hb a Hne). }
  generalize dependent (run ops emptyLedger). intros l Hp Hu He Hbal _ _ _ Hopen Hmc Hb0.
  unfold step.
  rewrite (join_run l a p amount n t1 Hn Hopen Hp) by (rewrite ?Hu; lia).
  cbn [outcome_of snd fst]. split; [done|].
  set (l1 := putPool p _ _).
  assert (Hacc1 : account_view l1 a
                  = mkAccountState (balance (account_view l a) - n) (Some p) n 0 None
                      (claimableRewards (account_view l a))).
  { unfold l1. views. rewrite decide_True by done. by rewrite Hb0, Hu, He. }
  assert (Hpool1 : pool_view l1 p
                   = mkPoolState (pool_poolId (pool_view l p)) (pool_bonded (pool_view l p) + n)
                       (memberCount (pool_view l p) + 1) Open (commission (pool_view l p))
                       (metadata (pool_view l p))).
  { unfold l1. views. rewrite decide_True by done. rewrite Hopen.
    by rewrite (decide_True _ _ Hb0). }
  rewrite (unbond_run l1 a p amount n t2) by (rewrite ?Hacc1; simpl; done || lia).
  cbn [outcome_of snd fst]. split; [done|].
  rewrite Hacc1, Hpool1. cbn [balance bonded unbonding claimableRewards pool_poolId
    pool_bonded memberCount state commission metadata].
  rewrite bool_decide_eq_true_2 by lia.
  set (l2 := putPool p _ _).
  assert (Hacc2 : account_view l2 a
                  = mkAccountState (balance (account_view l a) - n) None (n - n) (0 + n)
                      (Some (t2 + UNBONDING_PERIOD_MS))
                      (claimableRewards (account_view l a))).
  { unfold l2. views. by rewrite decide_True by done. }
  rewrite (withdraw_run l2 a t3) by (rewrite Hacc2; simpl; lia).
  cbn [outcome_of snd fst]. rewrite Hacc2. cbn [balance bonded unbonding poolId
    claimableRewards].
  split; [by rewrite Z.add_0_l|].
  clear Hacc1 Hpool1 Hacc2. split.
  - intros b. unfold l2, l1. views.
    destruct (decide (a = b)) as [<-|Hne]; [|done].
    revert Hp Hu He Hb0. destruct (account_view l a); simpl. intros -> -> -> ->.
    f_equal; lia.
  - intros q. unfold l2, l1. views.
    destruct (decide (p = q)) as [<-|Hne]; [|done].
    revert Hopen Hmc. destruct (pool_view l p); simpl. intros -> Hmc.
    f_equal; lia.
Qed.

Lemma join_unbond_withdraw_round_trip_witness :
  let l := run [GetStatus "b"] emptyLedger in
  same_views l
    (run [JoinPool "a" 1 "1000" 0; Unbond "a" "1000" 5;
          WithdrawUnbonded "a" (5 + UNBONDING_PERIOD_MS)] l).
Proof.
  cbn zeta.
  refine (proj2 (proj2 (proj2
    (join_unbond_withdraw_round_trip [GetStatus "b"] "a" 1 "1000" 1000 0 5
       (5 + UNBONDING_PERIOD_MS) eq_refl eq_refl eq_refl eq_refl _ _ _)))).
  - discriminate.
  - vm_compute. discriminate.
  - lia.
Defined.




(** X17: every successful unbond restarts the waiting period.  An unbond at
    time [t] that succeeds sets the release time to [t + UNBONDING_PERIOD_MS]
    whatever release time earlier unbonds had set.  When the unbonding amount
    is then nonzero, a withdrawal before that time is rejected and changes
    nothing, and a withdrawal from that time on pays out the earlier and the
    new amount together; when the unbonding amount is then zero, a withdrawal
    finds no unbonded funds. *)
Theorem unbond_restarts_period (l : Ledger) (a : string) (p : Z) (amount : string)
    (n t now : Z) :
  let acc := account_view l a in
  let l' := (mockUnbond a amount t l).2 in
  poolId acc = Some p →
  StringToBigInt amount = Some n →
  n ≤ bonded acc →
  (mockUnbond a amount t l).1 = Normal (ok (MsgUnbondInitiated n))
  ∧ unbondingEra (account_view l' a) = Some (t + UNBONDING_PERIOD_MS)
  ∧ unbonding (account_view l' a) = unbonding acc + n
  ∧ (unbonding acc + n = 0 →
     mockWithdrawUnbonded a now l'
     = (Normal (fail MsgNoUnbondedFunds NO_UNBONDED_FUNDS), l'))
  ∧ (unbonding acc + n ≠ 0 → now < t + UNBONDING_PERIOD_MS →
     mockWithdrawUnbonded a now l'
     = (Normal (fail (MsgUnbondingNotComplete (daysLeft (t + UNBONDING_PERIOD_MS) now))
                  UNBONDING_PERIOD_NOT_COMPLETE),
        l'))
  ∧ (unbonding acc + n ≠ 0 → t + UNBONDING_PERIOD_MS ≤ now →
     (mockWithdrawUnbonded a now l').1 = Normal (ok (MsgWithdrew (unbonding acc + n)))
     ∧ balance (account_view (mockWithdrawUnbonded a now l').2 a)
       = balance acc + (unbonding acc + n)
     ∧ unbonding (account_view (mockWithdrawUnbonded a now l').2 a) = 0).
Proof.
  cbn zeta. intros Hp Hn Hle.
  rewrite (unbond_run l a p amount n t Hp Hn Hle). cbn [fst snd].
  set (l' := putPool p _ _).
  assert (Hacc : account_view l' a
                 = mkAccountState (balance (account_view l a))
                     (if bool_decide (bonded (account_view l a) - n = 0) then None
                      else Some p)
                     (bonded (account_view l a) - n) (unbonding (account_view l a) + n)
                     (Some (t + UNBONDING_PERIOD_MS))
                     (claimableRewards (account_view l a))).
  { unfold l'. views. by rewrite decide_True by done. }
  assert (Hid : putAccount a (account_view l' a) l' = l').
  { apply putAccount_view_id.
    unfold l', putPool, putAccount, account_view. cbn [accountStates].
    by rewrite lookup_insert_eq. }
  split; [done|]. split; [by rewrite Hacc|]. split; [by rewrite Hacc|].
  split; [|split].
  - intros H0. unfold mockWithdrawUnbonded. run_call. rewrite Hid, Hacc.
    cbn [unbonding]. rewrite decide_True by done. by run_call.
  - intros Hne Hlt. unfold mockWithdrawUnbonded. run_call. rewrite Hid, Hacc.
    cbn [unbonding unbondingEra or_zero default from_option id].
    rewrite decide_False by done. rewrite decide_True by done. by run_call.
  - intros Hne Hge.
    rewrite (withdraw_run l' a now) by (rewrite Hacc; simpl; done || lia).
    cbn [fst snd]. views. rewrite decide_True by done. rewrite Hacc. by simpl.
Qed.

Lemma unbond_restarts_period_witness :
  let l := run [JoinPool "a" 1 "1000" 0; Unbond "a" "400" 0] emptyLedger in
  let l' := (mockUnbond "a" "100" UNBONDING_PERIOD_MS l).2 in
  (mockWithdrawUnbonded "a" UNBONDING_PERIOD_MS l).1 = Normal (ok (MsgWithdrew 400))
  ∧ (mockWithdrawUnbonded "a" UNBONDING_PERIOD_MS l').1
    = Normal (fail (MsgUnbondingNotComplete 28) UNBONDING_PERIOD_NOT_COMPLETE).
Proof.
  cbn zeta. set (l := run [JoinPool "a" 1 "1000" 0; Unbond "a" "400" 0] emptyLedger).
  split; [reflexivity|].
  assert (Hle : 100 ≤ bonded (account_view l "a")) by (vm_compute; discriminate).
  assert (Hne : unbonding (account_view l "a") + 100 ≠ 0) by (vm_compute; discriminate).
  destruct (unbond_restarts_period l "a" 1 "100" 100 UNBONDING_PERIOD_MS
              UNBONDING_PERIOD_MS eq_refl eq_refl Hle) as (_ & _ & _ & _ & Hearly & _).
  rewrite (Hearly Hne) by (vm_compute; reflexivity). reflexivity.
Defined.



(** * Properties of the API server in mock mode *)

Lemma returned_failure_same_views op l r :
  (step op l).1 = Returned r → success r = false → same_views l (step op l).2.
Proof.
  step_cases op; intros [= <-]; cbn [success ok fail]; try discriminate; intros _;
    views; auto with ledger.
Qed.

Lemma threw_same_views op l : (step op l).1 = Threw → same_views l (step op l).2.
Proof.
  step_cases op; try discriminate; intros _; views; auto with ledger.
Qed.

(** The two facts in the form in which the handlers meet a call. *)
Lemma completion_same_views op l (c : Completion Result * Ledger) :
  step op l = outcome_of Returned c →
  (∀ r, c.1 = Normal r → success r = false → same_views l c.2)
  ∧ (c.1 = Throw → same_views l c.2).
Proof.
  intros Hstep. destruct c as [[r|] l']; cbn [fst snd]; split.
  - intros r' [= ->] Hs.
    pose proof (returned_failure_same_views op l r') as H. rewrite Hstep in H.
    by apply H.
  - discriminate.
  - discriminate.
  - intros _. pose proof (threw_same_views op l) as H. rewrite Hstep in H. by apply H.
Qed.

Lemma reply_of_mock_codes fallback prefix failed stamp l (c : Completion Result * Ledger) :
  (∀ r, c.1 = Normal r → success r = false → same_views l c.2) →
  (c.1 = Throw → same_views l c.2) →
  ∃ rep, (reply_of_mock fallback prefix failed stamp c).1 = Sent rep
    ∧ (statusCode rep = 200 ∨ statusCode rep = 400 ∨ statusCode rep = 500)
    ∧ (reply_success rep = true ↔ statusCode rep = 200)
    ∧ (statusCode rep ≠ 200 → same_views l (reply_of_mock fallback prefix failed stamp c).2).
Proof.
  intros Hfail Hthrow. destruct c as [[r|] l']; cbn [fst snd reply_of_mock] in *.
  - destruct (success r) eqn:Hs; cbn [negb fst snd]; eexists; (split; [reflexivity|]);
      cbn [statusCode reply_success].
    + split; [by left|]. split; [done|]. intros H. by destruct H.
    + split; [right; by left|]. split; [split; discriminate|]. intros _. exact (Hfail r eq_refl Hs).
  - eexists. split; [reflexivity|]. cbn [statusCode reply_success send500].
    split; [right; by right|]. split; [split; discriminate|]. intros _. by apply Hthrow.
Qed.

Lemma sent400_codes l err msg :
  ∃ rep, Sent (send400 err msg) = Sent rep
    ∧ (statusCode rep = 200 ∨ statusCode rep = 400 ∨ statusCode rep = 500)
    ∧ (reply_success rep = true ↔ statusCode rep = 200)
    ∧ (statusCode rep ≠ 200 → same_views l l).
Proof.
  eexists. split; [reflexivity|]. cbn. split; [right; by left|].
  split; [split; discriminate|]. intros _. apply same_views_refl.
Qed.

Lemma sent500_codes l err :
  ∃ rep, Sent (send500 err) = Sent rep
    ∧ (statusCode rep = 200 ∨ statusCode rep = 400 ∨ statusCode rep = 500)
    ∧ (reply_success rep = true ↔ statusCode rep = 200)
    ∧ (statusCode rep ≠ 200 → same_views l l).
Proof.
  eexists. split; [reflexivity|]. cbn. split; [right; by right|].
  split; [split; discriminate|]. intros _. apply same_views_refl.
Qed.

(** What the six handlers answer in mock mode. *)
Lemma handlers_reply_codes (env : Env) (req : ApiRequest) (now stamp : Z)
    (l : Ledger) :
  isMockChainEnabled env = true →
  ∃ rep, (handle env req now stamp l).1 = Sent rep
    ∧ (statusCode rep = 200 ∨ statusCode rep = 400 ∨ statusCode rep = 500)
    ∧ (reply_success rep = true ↔ statusCode rep = 200)
    ∧ (statusCode rep ≠ 200 → same_views l (handle env req now stamp l).2).
Proof.
  intros Hmock.
  destruct req as [account body|account body|account body|account|account body|account];
    unfold handle, joinPoolRoute, bondExtraRoute, unbondRoute, withdrawUnbondedRoute,
      claimRewardsRoute, stakingStatusRoute; rewrite ?Hmock.
  - destruct body as [[[p|] [amount|]]|]; cbn [params_poolId params_amount];
      try apply sent500_codes; try apply sent400_codes.
    + case_decide; [apply sent400_codes|]. destruct (blank amount); [apply sent400_codes|].
      by apply reply_of_mock_codes;
        apply (completion_same_views (JoinPool (account_or_dummy account) p amount now) l).
    + case_decide; apply sent400_codes.
  - destruct body as [[amount|]|]; try apply sent500_codes; try apply sent400_codes.
    destruct (blank amount); [apply sent400_codes|].
    by apply reply_of_mock_codes;
      apply (completion_same_views (BondExtra (account_or_dummy account) amount) l).
  - destruct body as [[amount|]|]; try apply sent500_codes; try apply sent400_codes.
    destruct (blank amount); [apply sent400_codes|].
    by apply reply_of_mock_codes;
      apply (completion_same_views (Unbond (account_or_dummy account) amount now) l).
  - by apply reply_of_mock_codes;
      apply (completion_same_views (WithdrawUnbonded (account_or_dummy account) now) l).
  - by apply reply_of_mock_codes;
      apply (completion_same_views (ClaimRewards (account_or_dummy account) (mjoin body)) l).
  - destruct account as [[|c a]|]; try apply sent400_codes.
    rewrite status_run. eexists. split; [reflexivity|]. cbn [statusCode reply_success].
    split; [by left|]. split; [done|]. intros H. by destruct H.
Qed.

(** X19: in mock mode every request to the status route and the five POST
    routes is answered.  A request that reaches its handler is answered with
    status 200, 400 or 500; the reply reports success exactly when the status
    is 200; and a request that is not answered with 200 (a validation error,
    a rejection by the state manager, or an exception such as the
    [SyntaxError] of an amount that [BigInt] rejects, which the handler
    catches) leaves the record of every account and pool as it was.  A
    request that the server refuses before the handler runs is answered by
    the error handler: with the status code of the error when it is one of
    400 to 599 (415 for an unsupported media type, 413 for a body too
    large), with 500 when the error has none, never as a success and without
    hash or data, and the ledger is not touched. *)
Theorem mock_routes_always_reply (env : Env) (d : Delivery) (now stamp : Z)
    (l : Ledger) :
  isMockChainEnabled env = true →
  ∃ rep, (serve env d now stamp l).1 = Sent rep
    ∧ match d with
      | Delivered _ =>
          (statusCode rep = 200 ∨ statusCode rep = 400 ∨ statusCode rep = 500)
          ∧ (reply_success rep = true ↔ statusCode rep = 200)
          ∧ (statusCode rep ≠ 200 → same_views l (serve env d now stamp l).2)
      | Refused e =>
          (∀ c, error_statusCode e = Some c → 400 ≤ c ≤ 599 → statusCode rep = c)
          ∧ (error_statusCode e = None → statusCode rep = 500)
          ∧ reply_success rep = false
          ∧ txHash rep = None ∧ data rep = None
          ∧ (serve env d now stamp l).2 = l
      end.
Proof.
  intros Hmock. destruct d as [req|e]; cbn [serve].
  - by apply handlers_reply_codes.
  - eexists. split; [reflexivity|]. cbn [fst snd]. unfold errorHandler.
    cbn [statusCode reply_success txHash data].
    split; [|split; [|done]].
    + intros c -> Hc. rewrite decide_False by lia. reflexivity.
    + by intros ->.
Qed.

Lemma mock_routes_always_reply_witness :
  (∃ rep,
     (serve (mkEnv (Some "1") None)
        (Refused (mkServerError (Some 415) "FastifyError" "Unsupported Media Type")) 0 0
        emptyLedger).1 = Sent rep
     ∧ statusCode rep = 415 ∧ reply_success rep = false)
  ∧ (∃ rep,
       (serve (mkEnv (Some "1") None)
          (Delivered (PostJoinPool None (Some (mkJoinPoolParams (Some 1) (Some "abc")))))
          0 0 emptyLedger).1 = Sent rep
       ∧ (reply_success rep = true ↔ statusCode rep = 200)).
Proof.
  split.
  - destruct (mock_routes_always_reply (mkEnv (Some "1") None)
                (Refused (mkServerError (Some 415) "FastifyError" "Unsupported Media Type"))
                0 0 emptyLedger eq_refl) as (rep & Hr & Hc & _ & Hs & _).
    exists rep. split; [exact Hr|]. split; [|exact Hs].
    apply (Hc 415); [reflexivity | lia].
  - destruct (mock_routes_always_reply (mkEnv (Some "1") None)
                (Delivered (PostJoinPool None (Some (mkJoinPoolParams (Some 1) (Some "abc")))))
                0 0 emptyLedger eq_refl) as (rep & Hr & _ & Hs & _).
    exists rep. split; [exact Hr | exact Hs].
Defined.

Lemma trimStart_all_space s : all_space s = true → trimStart s = "".
Proof.
  induction s as [|c rest IH]; simpl; [done|].
  intros H. apply andb_true_iff in H as [-> Hrest]. by apply IH.
Qed.

Lemma trimStart_head s :
  trimStart s = "" ∨ ∃ c rest, trimStart s = String c rest ∧ is_StrWhiteSpaceChar c = false.
Proof.
  induction s as [|c rest IH]; simpl; [by left|].
  destruct (is_StrWhiteSpaceChar c) eqn:E; [exact IH|]. right. by exists c, rest.
Qed.

Lemma trimStart_empty_all_space s : trimStart s = "" → all_space s = true.
Proof.
  induction s as [|c rest IH]; simpl; [done|].
  destruct (is_StrWhiteSpaceChar c); [exact IH | discriminate].
Qed.

Lemma trimEnd_nonempty c rest : is_StrWhiteSpaceChar c = false → trimEnd (String c rest) ≠ "".
Proof. intros Hc. simpl. rewrite Hc. by destruct (trimEnd rest). Qed.

(** The handlers' test for a missing amount holds exactly of the texts made
    of white space only. *)
Lemma blank_all_space s : blank s = true ↔ all_space s = true.
Proof.
  unfold blank. rewrite orb_true_iff, !bool_decide_eq_true. split.
  - intros [->|H]; [done|].
    destruct (trimStart_head s) as [H0|(c & rest & Ht & Hc)].
    + by apply trimStart_empty_all_space.
    + rewrite Ht in H. by destruct (trimEnd_nonempty c rest Hc).
  - intros H. right. by rewrite (trimStart_all_space s H).
Qed.

(** X20: validation comes before any access to the ledger.  A join whose pool
    id is missing or not positive, and a join, bond-extra or (in mock mode)
    unbond whose amount is missing, empty or white space only, is answered
    with status 400, and the ledger is handed back as it is: not even a
    default record is created. *)
Theorem invalid_requests_leave_ledger_untouched (env : Env) (account : option string)
    (now stamp : Z) (l : Ledger) :
  (∀ params, no_pool_id (params_poolId params) →
     joinPoolRoute env account (Some params) now stamp l
     = (Sent (send400 "Invalid pool ID" "Pool ID must be a positive number"), l))
  ∧ (∀ params, ¬ no_pool_id (params_poolId params) → no_amount (params_amount params) →
     joinPoolRoute env account (Some params) now stamp l
     = (Sent (send400 "Invalid amount" "Amount is required (in Planck - smallest unit)"), l))
  ∧ (∀ amount, no_amount amount →
     bondExtraRoute env account (Some amount) stamp l
     = (Sent (send400 "Invalid amount" "Amount is required (in Planck - smallest unit)"), l))
  ∧ (∀ amount, isMockChainEnabled env = true → no_amount amount →
     unbondRoute env account (Some amount) now stamp l
     = (Sent (send400 "Invalid amount" "Amount is required"), l)).
Proof.
  unfold joinPoolRoute, bondExtraRoute, unbondRoute, no_pool_id, no_amount.
  split; [|split; [|split]].
  - intros [[p|] amount] Hp; cbn [params_poolId params_amount] in *; [|done].
    by rewrite decide_True.
  - intros [[p|] [amount|]] Hp Ha; cbn [params_poolId params_amount] in *;
      try (by destruct Hp); rewrite decide_False by done; [|done].
    by rewrite (proj2 (blank_all_space amount) Ha).
  - intros [amount|] Ha; [|done]. by rewrite (proj2 (blank_all_space amount) Ha).
  - intros [amount|] -> Ha; [|done]. by rewrite (proj2 (blank_all_space amount) Ha).
Qed.

Lemma invalid_requests_leave_ledger_untouched_witness :
  unbondRoute (mkEnv None (Some "true")) None (Some (Some "  ")) 0 0 emptyLedger
  = (Sent (send400 "Invalid amount" "Amount is required"), emptyLedger).
Proof.
  apply (proj2 (proj2 (proj2
    (invalid_requests_leave_ledger_untouched (mkEnv None (Some "true")) None 0 0
       emptyLedger))) (Some "  ")); reflexivity.
Defined.

Lemma append_assoc (s t u : string) : (s +:+ t) +:+ u = s +:+ (t +:+ u).
Proof.
  induction s as [|c s IH]; [done|].
  change (String c ((s +:+ t) +:+ u) = String c (s +:+ (t +:+ u))). by rewrite IH.
Qed.

Lemma prefix_app (s t : string) : String.prefix s (s +:+ t) = true.
Proof.
  induction s as [|c s IH]; [by destruct t|].
  change (String.prefix (String c s) (String c (s +:+ t)) = true). simpl.
  by destruct (ascii_dec c c).
Qed.

(** X21: in mock mode, a request answered with 200 by the handler of a POST
    route carries a transaction hash that starts with ["0xmock_"], the name
    of the route and ["_"], and carries no data; a status request answered
    with 200 by its handler carries the status and no hash. *)
Theorem success_replies_carry_mock_hash (env : Env) (req : ApiRequest) (now stamp : Z)
    (l : Ledger) (rep : Reply) :
  isMockChainEnabled env = true →
  (handle env req now stamp l).1 = Sent rep →
  statusCode rep = 200 →
  match route_name req with
  | Some name =>
      (∃ h, txHash rep = Some h ∧ String.prefix ("0xmock_" +:+ name +:+ "_") h = true)
      ∧ data rep = None
  | None => txHash rep = None ∧ is_Some (data rep)
  end.
Proof.
  intros Hmode.
  assert (Hmock : ∀ fallback name failed c,
            (reply_of_mock fallback name failed stamp c).1 = Sent rep →
            statusCode rep = 200 →
            (∃ h, txHash rep = Some h ∧ String.prefix ("0xmock_" +:+ name +:+ "_") h = true)
            ∧ data rep = None).
  { intros fallback name failed [[r|] l'] H Hc; cbn [reply_of_mock] in H.
    - destruct (success r); cbn [negb fst] in H; injection H as <-; [|discriminate].
      split; [|done]. eexists. split; [reflexivity|]. unfold mockTxHash.
      rewrite <- !append_assoc. apply prefix_app.
    - injection H as <-. discriminate. }
  destruct req as [account body|account body|account body|account|account body|account];
    unfold handle, joinPoolRoute, bondExtraRoute, unbondRoute, withdrawUnbondedRoute,
      claimRewardsRoute, stakingStatusRoute, route_name.
  - destruct body as [[[p|] [amount|]]|]; cbn [params_poolId params_amount fst];
      repeat case_decide; try (intros [= <-]; discriminate).
    destruct (blank amount); [intros [= <-]; discriminate|].
    destruct (isMockChainEnabled env); [apply Hmock | discriminate].
  - destruct body as [[amount|]|]; cbn [fst]; try (intros [= <-]; discriminate).
    destruct (blank amount); [intros [= <-]; discriminate|].
    destruct (isMockChainEnabled env); [apply Hmock | discriminate].
  - destruct (isMockChainEnabled env); [|discriminate].
    destruct body as [[amount|]|]; cbn [fst]; try (intros [= <-]; discriminate).
    destruct (blank amount); [intros [= <-]; discriminate | apply Hmock].
  - destruct (isMockChainEnabled env); [apply Hmock | discriminate].
  - destruct (isMockChainEnabled env); [apply Hmock | discriminate].
  - destruct account as [[|c a]|]; cbn [fst]; try (intros [= <-]; discriminate).
    destruct (isMockChainEnabled env); [|discriminate].
    rewrite status_run. intros [= <-] _. by split.
Qed.

Lemma success_replies_carry_mock_hash_witness :
  ∃ h, txHash
         (mkReply 200 true None
            (Some (MockMessage (MsgJoined 1 1000))) (Some (mockTxHash "join_pool" 255)) None)
       = Some h
       ∧ String.prefix "0xmock_join_pool_" h = true.
Proof.
  refine (proj1 (success_replies_carry_mock_hash (mkEnv (Some "1") None)
    (PostJoinPool None (Some (mkJoinPoolParams (Some 1) (Some "1000")))) 0 255 emptyLedger
    (mkReply 200 true None (Some (MockMessage (MsgJoined 1 1000)))
       (Some (mockTxHash "join_pool" 255)) None) _ _ _)); reflexivity.
Defined.

Lemma bond_run l a p amount n :
  poolId (account_view l a) = Some p →
  StringToBigInt amount = Some n →
  n + minReserve ≤ balance (account_view l a) →
  mockBondExtra a amount l
  = (Normal (ok (MsgBondedExtra n p)),
     putPool p
       (mkPoolState (pool_poolId (pool_view l p)) (pool_bonded (pool_view l p) + n)
          (memberCount (pool_view l p)) (state (pool_view l p))
          (commission (pool_view l p)) (metadata (pool_view l p)))
       (putAccount a
          (mkAccountState (balance (account_view l a) - n) (Some p)
             (bonded (account_view l a) + n) (unbonding (account_view l a))
             (unbondingEra (account_view l a)) (claimableRewards (account_view l a)))
          l)).
Proof.
  intros Hp Hn Hbal. unfold mockBondExtra. run_call. rewrite Hn, Hp. cbn beta iota.
  rewrite decide_False by lia. run_call. views.
  f_equal. apply ledger_eq; simpl; by rewrite insert_insert_eq.
Qed.

(** X22: the sequence of POST requests of the server's own test suite, sent
    without an account to a ledger in which the shared mock account is still
    untouched and pool 1 is open, is answered as the tests expect whatever the
    clock shows: join 1000 and bond-extra 1000 succeed with 200, unbond with
    an empty amount is rejected with 400, unbond 1000 succeeds with 200,
    withdraw is answered 400 without success before the release time and 200
    from then on, and claiming from pool 1 succeeds with 200. *)
Theorem api_test_sequence (env : Env) (l : Ledger) (t1 s1 s2 t3 s3 t4 s4 t5 s5 s6 : Z) :
  let dummy := "5DummyAccountForMockMode" in
  let o1 := handle env (PostJoinPool None (Some (mkJoinPoolParams (Some 1) (Some "1000"))))
              t1 s1 l in
  let o2 := handle env (PostBondExtra None (Some (Some "1000"))) 0 s2 o1.2 in
  let o3 := handle env (PostUnbond None (Some (Some ""))) t3 s3 o2.2 in
  let o4 := handle env (PostUnbond None (Some (Some "1000"))) t4 s4 o3.2 in
  let o5 := handle env (PostWithdrawUnbonded None) t5 s5 o4.2 in
  let o6 := handle env (PostClaimRewards None (Some (Some 1))) 0 s6 o5.2 in
  isMockChainEnabled env = true →
  account_view l dummy = defaultAccount →
  state (pool_view l 1) = Open →
  replied o1 200 true
  ∧ replied o2 200 true
  ∧ replied o3 400 false
  ∧ replied o4 200 true
  ∧ (if decide (t5 < t4 + UNBONDING_PERIOD_MS) then replied o5 400 false
     else replied o5 200 true)
  ∧ replied o6 200 true.
Proof.
  cbn zeta. intros Hmock Hacc Hopen.
  unfold handle, joinPoolRoute, bondExtraRoute, unbondRoute, withdrawUnbondedRoute,
    claimRewardsRoute. rewrite !Hmock. cbn [params_poolId params_amount account_or_dummy].
  rewrite decide_False by lia.
  change (blank "1000") with false. change (blank "") with true. cbn iota.
  set (d := "5DummyAccountForMockMode") in *.
  (* join *)
  rewrite (join_run l d 1 "1000" 1000 t1 eq_refl Hopen)
    by (rewrite Hacc; simpl; done || (unfold minReserve, DEFAULT_BALANCE; lia)).
  rewrite Hacc. cbn [reply_of_mock success ok negb snd fst balance bonded unbonding
    unbondingEra claimableRewards poolId defaultAccount].
  rewrite (decide_True (P := 0 = 0)) by done.
  split; [eexists; by split|].
  set (l1 := putPool 1 _ _).
  assert (Hacc1 : account_view l1 d
                  = mkAccountState (DEFAULT_BALANCE - 1000) (Some 1) (0 + 1000) 0 None 0).
  { unfold l1. views. by rewrite decide_True by done. }
  (* bond extra *)
  rewrite (bond_run l1 d 1 "1000" 1000)
    by (rewrite ?Hacc1; simpl; done || (unfold minReserve, DEFAULT_BALANCE; lia)).
  cbn [reply_of_mock success ok negb snd fst].
  split; [eexists; by split|].
  rewrite Hacc1. cbn [balance bonded unbonding unbondingEra claimableRewards poolId].
  set (l2 := putPool 1 _ _).
  assert (Hacc2 : account_view l2 d
                  = mkAccountState (DEFAULT_BALANCE - 1000 - 1000) (Some 1) (0 + 1000 + 1000)
                      0 None 0).
  { unfold l2. views. by rewrite decide_True by done. }
  (* unbond with an empty amount *)
  split; [eexists; by split|]. cbn [snd].
  (* unbond *)
  rewrite (unbond_run l2 d 1 "1000" 1000 t4) by (rewrite ?Hacc2; simpl; done || lia).
  cbn [reply_of_mock success ok negb snd fst].
  split; [eexists; by split|].
  rewrite Hacc2. cbn [balance bonded unbonding unbondingEra claimableRewards poolId].
  rewrite bool_decide_eq_false_2 by lia.
  set (l3 := putPool 1 _ _).
  assert (Hacc3 : account_view l3 d
                  = mkAccountState (DEFAULT_BALANCE - 1000 - 1000) (Some 1)
                      (0 + 1000 + 1000 - 1000) (0 + 1000)
                      (Some (t4 + UNBONDING_PERIOD_MS)) 0).
  { unfold l3. views. by rewrite decide_True by done. }
  (* withdraw *)
  destruct (decide (t5 < t4 + UNBONDING_PERIOD_MS)) as [Hearly|Hlate].
  - assert (Hw : mockWithdrawUnbonded d t5 l3
                 = (Normal (fail (MsgUnbondingNotComplete
                                    (daysLeft (t4 + UNBONDING_PERIOD_MS) t5))
                              UNBONDING_PERIOD_NOT_COMPLETE),
                    putAccount d (account_view l3 d) l3)).
    { unfold mockWithdrawUnbonded. run_call. rewrite Hacc3.
      cbn [unbonding unbondingEra or_zero default from_option id].
      rewrite decide_False by lia. rewrite decide_True by done. by run_call. }
    rewrite Hw. cbn [reply_of_mock success fail negb snd fst].
    split; [eexists; by split|].
    unfold mockClaimRewards. run_call. views. rewrite decide_True by done.
    rewrite Hacc3. cbn [poolId claimableRewards]. cbn beta iota.
    rewrite decide_False by (intros [_ H]; by apply H).
    rewrite decide_True by done. run_call. cbn [reply_of_mock success ok negb fst].
    eexists; by split.
  - rewrite (withdraw_run l3 d t5) by (rewrite Hacc3; simpl; lia).
    cbn [reply_of_mock success ok negb snd fst].
    split; [eexists; by split|].
    unfold mockClaimRewards. run_call. views. rewrite decide_True by done.
    rewrite Hacc3. cbn [poolId claimableRewards]. cbn beta iota.
    rewrite decide_False by (intros [_ H]; by apply H).
    rewrite decide_True by done. run_call. cbn [reply_of_mock success ok negb fst].
    eexists; by split.
Qed.

Lemma api_test_sequence_witness :
  replied
    (handle (mkEnv (Some "1") None)
       (PostJoinPool None (Some (mkJoinPoolParams (Some 1) (Some "1000")))) 0 0
       emptyLedger)
    200 true.
Proof.
  exact (proj1 (api_test_sequence (mkEnv (Some "1") None) emptyLedger 0 0 0 0 0 0 0 0 0 0
                  eq_refl eq_refl eq_refl)).
Defined.

(** * Further compositions *)

(** X23: the pool-info query returns the fields of the pool's current view
    with the four roles ["N/A"], changes the view of no account and no pool,
    and gives the same answer when it is repeated. *)
Theorem pool_info_reads_view (l : Ledger) (p : Z) :
  (mockGetPoolInfo p l).1 = Normal (info_of (pool_view l p))
  ∧ same_views l (mockGetPoolInfo p l).2
  ∧ mockGetPoolInfo p (mockGetPoolInfo p l).2 = mockGetPoolInfo p l.
Proof.
  unfold mockGetPoolInfo. run_call. cbn [fst snd].
  split; [done|]. split; [auto with ledger|].
  run_call. views. rewrite decide_True by done. f_equal.
  apply putPool_putPool.
Qed.

(** X24: bonding in two steps is bonding at once.  When a join with [n]
    passes its five checks (open pool, no membership, no pending unbonding
    funds, free balance covering [n] and the fee reserve) and the free balance
    also covers [n + m] and the fee reserve, the join followed by a
    bond-extra with [m] leaves exactly the ledger that a single join with an
    amount of value [n + m] leaves. *)
Theorem join_then_bond_extra (l : Ledger) (a : string) (p : Z)
    (amount extra both : string) (n m now : Z) :
  let acc := account_view l a in
  StringToBigInt amount = Some n →
  StringToBigInt extra = Some m →
  StringToBigInt both = Some (n + m) →
  state (pool_view l p) = Open →
  poolId acc = None →
  ¬ (0 < unbonding acc ∧ now < or_zero (unbondingEra acc)) →
  n + minReserve ≤ balance acc →
  n + m + minReserve ≤ balance acc →
  (mockJoinPool a p amount now l).1 = Normal (ok (MsgJoined p n))
  ∧ (mockBondExtra a extra (mockJoinPool a p amount now l).2).1
    = Normal (ok (MsgBondedExtra m p))
  ∧ (mockJoinPool a p both now l).1 = Normal (ok (MsgJoined p (n + m)))
  ∧ (mockBondExtra a extra (mockJoinPool a p amount now l).2).2
    = (mockJoinPool a p both now l).2.
Proof.
  cbn zeta. intros Hn Hm Hboth Hopen Hp Hu Hbal Hbal2.
  rewrite (join_run l a p amount n now Hn Hopen Hp Hu Hbal).
  rewrite (join_run l a p both (n + m) now Hboth Hopen Hp Hu) by lia.
  cbn [fst snd]. set (l1 := putPool p _ _).
  assert (Hacc1 : account_view l1 a
                  = mkAccountState (balance (account_view l a) - n) (Some p)
                      (bonded (account_view l a) + n) (unbonding (account_view l a))
                      (unbondingEra (account_view l a))
                      (claimableRewards (account_view l a))).
  { unfold l1. views. by rewrite decide_True by done. }
  rewrite (bond_run l1 a p extra m) by (rewrite ?Hacc1; simpl; done || lia).
  cbn [fst snd]. split; [done|]. split; [done|]. split; [done|].
  rewrite Hacc1. cbn [balance bonded unbonding unbondingEra claimableRewards poolId].
  unfold l1. views. rewrite decide_True by done.
  cbn [pool_poolId pool_bonded memberCount state commission metadata].
  apply ledger_eq; unfold putPool, putAccount; cbn [accountStates poolStates];
    rewrite insert_insert_eq; do 2 f_equal; lia.
Qed.

Lemma join_then_bond_extra_witness :
  (mockBondExtra "a" "250" (mockJoinPool "a" 1 "750" 0 emptyLedger).2).2
  = (mockJoinPool "a" 1 "1000" 0 emptyLedger).2.
Proof.
  refine (proj2 (proj2 (proj2
    (join_then_bond_extra emptyLedger "a" 1 "750" "250" "1000" 750 250 0
       eq_refl eq_refl eq_refl eq_refl eq_refl _ _ _)))).
  - intros [H _]. vm_compute in H. discriminate.
  - vm_compute. discriminate.
  - vm_compute. discriminate.
Defined.
